(** * react-crud: the CRUD action factory and the two resource pages

    A shallow embedding of [crud_actions.ts] (the four handler factories
    [createFetchHandler], [createCreateHandler], [createUpdateHandler],
    [createDeleteHandler]) and of the submit handlers of the pages
    [posts.tsx] and [users.tsx], followed by the properties of the
    specification that concern them.

    A number is an integer-valued double: a [Z], with the rounding of IEEE
    754 written out where the code adds ([Js.number_add]) and prints
    ([Js.to_string]).  The text of a form field, which the code inspects
    character by character, is the sequence of its UTF-16 code units
    ([Js.text]); messages, URLs and property names, which the code only
    builds and passes on, are strings.  A handler is an asynchronous closure
    that calls React state setters and [fetch]; it never reads the page
    state back, only the values it closed over.  It is modelled, from the
    call to the point where its request has settled and its last setter has
    run, as the ordered trace of the effects it performs, together with its
    completion (normal, or a thrown value). *)

From stdpp Require Import base list strings gmap pretty.

Local Open Scope Z_scope.

(** ** The JavaScript fragments the handlers rely on *)

Module Js.

(** A value caught by [catch (err)]: an [Error] instance with its
    [message], or anything else. *)
Inductive thrown : Type :=
| Error (message : string)
| NonError.

(** [err instanceof Error ? err.message : fallback] *)
Definition message_or (fallback : string) (err : thrown) : string :=
  match err with
  | Error message => message
  | NonError => fallback
  end.

(** The value of a string the code looks into: its UTF-16 code units. *)
Definition text : Type := list N.

(** The text of an ASCII literal. *)
Definition lit (s : string) : text :=
  (fun a => Ascii.N_of_ascii a) <$> String.list_ascii_of_string s.

(** The code units that [trim] removes: ECMAScript's WhiteSpace (TAB, VT,
    FF, ZWNBSP U+FEFF and the space separators U+0020, U+00A0, U+1680,
    U+2000 to U+200A, U+202F, U+205F, U+3000) and LineTerminator (LF, CR,
    U+2028, U+2029). *)
Definition is_white_space (c : N) : bool :=
  ((9 <=? c) && (c <=? 13)
   || (c =? 32) || (c =? 160) || (c =? 5760)
   || (8192 <=? c) && (c <=? 8202)
   || (c =? 8232) || (c =? 8233) || (c =? 8239) || (c =? 8287)
   || (c =? 12288) || (c =? 65279))%N.

(** [String.prototype.trimStart] *)
Fixpoint trimStart (s : text) : text :=
  match s with
  | [] => []
  | c :: s' => if is_white_space c then trimStart s' else s
  end.

(** [String.prototype.trimEnd] *)
Fixpoint trimEnd (s : text) : text :=
  match s with
  | [] => []
  | c :: s' =>
      match trimEnd s' with
      | [] => if is_white_space c then [] else [c]
      | r => c :: r
      end
  end.

(** [String.prototype.trim] *)
Definition trim (s : text) : text := trimEnd (trimStart s).

(** Truthiness of a text: only the empty one is falsy. *)
Definition truthy_text (s : text) : bool :=
  match s with
  | [] => false
  | _ :: _ => true
  end.

(** Truthiness of a string: only the empty string is falsy. *)
Definition truthy_string (s : string) : bool :=
  match s with
  | EmptyString => false
  | String _ _ => true
  end.

(** Truthiness of an optional number: [undefined] and [0] are falsy. *)
Definition truthy_number (n : option Z) : bool :=
  match n with
  | None => false
  | Some z => negb (z =? 0)
  end.

(** [n || 0] for an optional number. *)
Definition or_zero (n : option Z) : Z :=
  match n with
  | Some z => if truthy_number n then z else 0
  | None => 0
  end.

(** [Math.max(x, ...xs)] with at least one argument. *)
Definition Math_max (x : Z) (xs : list Z) : Z := foldl Z.max x xs.

(** The double nearest to the integer [z], ties to the even significand
    (for [z] below 2^1024 in absolute value).  Every integer up to 2^53 in
    absolute value is a double; beyond, the doubles are the multiples of
    [2 ^ e] with a significand [q] of 53 bits. *)
Definition round_double (z : Z) : Z :=
  if Z.abs z <=? 2 ^ 53 then z
  else
    let a := Z.abs z in
    let e := Z.log2 a - 52 in
    let q := a / 2 ^ e in
    let r := a mod 2 ^ e in
    let half := 2 ^ (e - 1) in
    let q' :=
      if r <? half then q
      else if half <? r then q + 1
      else if Z.even q then q else q + 1 in
    Z.sgn z * (q' * 2 ^ e).

(** [a + b] on numbers. *)
Definition number_add (a b : Z) : Z := round_double (a + b).

(** [Number.isSafeInteger(n)] for an integer-valued number. *)
Definition is_safe_integer (n : Z) : bool := Z.abs n <=? 2 ^ 53 - 1.

(** The number of decimal digits of a positive integer. *)
Definition decimal_length (a : Z) : Z := Z.of_nat (String.length (pretty a)).

(** Number::toString chooses the decimal with the fewest significant digits
    [k] that still denotes the double [x], the closest one if several do:
    [shortest fuel k x] tries [k], [k + 1], ... digits and returns that
    decimal as an integer. *)
Fixpoint shortest (fuel : nat) (k : Z) (x : Z) : Z :=
  match fuel with
  | O => x
  | S fuel' =>
      let p := 10 ^ (decimal_length x - k) in
      let lo := x / p * p in
      let hi := (x / p + 1) * p in
      let ok_lo := round_double lo =? x in
      let ok_hi := round_double hi =? x in
      if ok_lo && ok_hi then
        if x - lo <? hi - x then lo
        else if hi - x <? x - lo then hi
        else if Z.even (x / p) then lo else hi
      else if ok_lo then lo
      else if ok_hi then hi
      else shortest fuel' (k + 1) x
  end.

Fixpoint strip_zeros (v : Z) (fuel : nat) : Z :=
  match fuel with
  | O => v
  | S fuel' => if v mod 10 =? 0 then strip_zeros (v / 10) fuel' else v
  end.

(** The exponent notation Number::toString uses from 10^21 on:
    [d.ddde+n]. *)
Definition exponent_form (v : Z) : string :=
  let n := decimal_length v in
  match pretty (strip_zeros v (Z.to_nat n)) with
  | String d EmptyString => String d EmptyString
  | String d rest => String d ("." +:+ rest)
  | EmptyString => EmptyString
  end +:+ "e+" +:+ pretty (n - 1).

Definition to_string_pos (x : Z) : string :=
  if x <=? 2 ^ 53 then pretty x
  else
    let v := shortest 17 1 x in
    if v <? 10 ^ 21 then pretty v else exponent_form v.

(** [`${n}`] for an integer-valued number: its digits up to 2^53; beyond,
    the shortest decimal that denotes it, padded with zeros below 10^21 and
    in exponent notation from there on. *)
Definition to_string (n : Z) : string :=
  if n <? 0 then "-" +:+ to_string_pos (- n) else to_string_pos n.

(** [`${n}`] for an optional integer. *)
Definition to_string_opt (n : option Z) : string :=
  match n with
  | Some z => to_string z
  | None => "undefined"
  end.

End Js.

Import Js.

(** ** crud_actions.ts *)

Module CrudActions.

(** [interface Entity { id?: number }]: an object with an optional numeric
    [id] and the resource's own properties [fields]. *)
Record Entity (F : Type) : Type := mkEntity {
  id : option Z;
  fields : F;
}.
Arguments mkEntity {F} _ _.
Arguments id {F} _.
Arguments fields {F} _.

(** [{ ...item, id: n }] *)
Definition with_id {F : Type} (item : Entity F) (n : Z) : Entity F :=
  {| id := Some n; fields := fields item |}.

Inductive http_method : Type := GET | POST | PUT | DELETE.

(** The arguments of one [fetch] call; [body] is the item handed to
    [JSON.stringify]. *)
Record request (T : Type) : Type := mkRequest {
  method : http_method;
  url : string;
  headers : list (string * string);
  body : option T;
}.
Arguments mkRequest {T} _ _ _ _.
Arguments method {T} _.
Arguments url {T} _.
Arguments headers {T} _.
Arguments body {T} _.

(** How a statement or an awaited promise completes. *)
Inductive completion (A : Type) : Type :=
| Normal (a : A)
| Throw (err : thrown).
Arguments Normal {A} _.
Arguments Throw {A} _.

(** A [Response]: its [status], and what [response.json()] settles to. *)
Record response (B : Type) : Type := mkResponse {
  status : Z;
  json : completion B;
}.
Arguments mkResponse {B} _ _.
Arguments status {B} _.
Arguments json {B} _.

(** [response.ok]: the status is in the range 200-299. *)
Definition ok {B : Type} (r : response B) : bool :=
  (200 <=? status r) && (status r <=? 299).

(** What the promise returned by [fetch] settles to.  A request that never
    settles leaves its handler suspended at the [await]; the handlers are
    described for the requests that settle. *)
Inductive fetch_result (B : Type) : Type :=
| Rejected (err : thrown)
| Resolved (r : response B).
Arguments Rejected {B} _.
Arguments Resolved {B} _.

Section Handlers.

Context {F : Type}.

(** The type parameter [T extends Entity]. *)
Abbreviation T := (Entity F).

(** The observable effects of a handler, in program order. *)
Inductive event : Type :=
| SetItems (items : list T)
| SetLoading (loading : bool)
| SetError (error : option string)
| SetFormData (formData : T)
| Fetch (r : request T)
| ConsoleError (msg : string) (err : thrown).

(** A computation: the trace of its effects and its completion. *)
Definition Eff (A : Type) : Type := (list event * completion A)%type.

Definition ret {A : Type} (a : A) : Eff A := ([], Normal a).

Definition bind {A B : Type} (m : Eff A) (k : A -> Eff B) : Eff B :=
  match m with
  | (tr, Normal a) => let '(tr', c) := k a in (tr ++ tr', c)
  | (tr, Throw err) => (tr, Throw err)
  end.

(** [throw err] *)
Definition throw {A : Type} (err : thrown) : Eff A := ([], Throw err).

(** [try { m } catch (err) { h err }] *)
Definition try_catch {A : Type} (m : Eff A) (h : thrown -> Eff A) : Eff A :=
  match m with
  | (tr, Normal a) => (tr, Normal a)
  | (tr, Throw err) => let '(tr', c) := h err in (tr ++ tr', c)
  end.

(** [try { m } finally { f }] *)
Definition try_finally {A : Type} (m : Eff A) (f : Eff unit) : Eff A :=
  let '(tr, c) := m in
  match f with
  | (tr', Normal _) => (tr ++ tr', c)
  | (tr', Throw err) => (tr ++ tr', Throw err)
  end.

Definition emit (e : event) : Eff unit := ([e], Normal tt).

Definition setItems (items : list T) : Eff unit := emit (SetItems items).
Definition setLoading (loading : bool) : Eff unit := emit (SetLoading loading).
Definition setError (error : option string) : Eff unit := emit (SetError error).
Definition setFormData (formData : T) : Eff unit := emit (SetFormData formData).
Definition console_error (msg : string) (err : thrown) : Eff unit :=
  emit (ConsoleError msg err).

(** [await fetch(...)]: the request is issued, then the remote side
    [server] decides how the promise settles. *)
Definition fetch {B : Type} (server : request T -> fetch_result B)
    (r : request T) : Eff (response B) :=
  match server r with
  | Rejected err => ([Fetch r], Throw err)
  | Resolved resp => ([Fetch r], Normal resp)
  end.

(** [await response.json()] *)
Definition await_json {B : Type} (resp : response B) : Eff B :=
  ([], json resp).

(** [if (!response.ok) throw new Error(`HTTP error! status: ...`)] *)
Definition check_ok {B : Type} (resp : response B) : Eff unit :=
  if negb (ok resp)
  then throw (Error ("HTTP error! status: " +:+ to_string (status resp)))
  else ret tt.

End Handlers.

Arguments event : clear implicits.
Arguments Eff : clear implicits.

Global Instance eff_ret {F} : MRet (Eff F) := fun A => @ret F A.
Global Instance eff_bind {F} : MBind (Eff F) := fun A B k m => @bind F A B m k.

Definition json_headers : list (string * string) :=
  [("Content-Type", "application/json")].

Section Factories.

Context {F : Type}.
Abbreviation T := (Entity F).

(** [fetch(baseUrl)] *)
Definition list_request (baseUrl : string) : request T :=
  mkRequest GET baseUrl [] None.

(** [fetch(baseUrl, { method: 'POST', headers, body })] *)
Definition create_request (baseUrl : string) (itemData : T) : request T :=
  mkRequest POST baseUrl json_headers (Some itemData).

(** [fetch(`${baseUrl}/${itemData.id}`, { method: 'PUT', headers, body })] *)
Definition update_request (baseUrl : string) (itemData : T) : request T :=
  mkRequest PUT (baseUrl +:+ "/" +:+ to_string_opt (id itemData))
    json_headers (Some itemData).

(** [fetch(`${baseUrl}/${id}`, { method: 'DELETE' })] *)
Definition delete_request (baseUrl : string) (n : Z) : request T :=
  mkRequest DELETE (baseUrl +:+ "/" +:+ to_string n) [] None.

Definition createFetchHandler
    (server : request T -> fetch_result (list T))
    (baseUrl : string) (entityName : string) : Eff F unit :=
  try_finally
    (try_catch
       (setLoading true;;
        setError None;;
        response ← fetch server (list_request baseUrl);
        check_ok response;;
        data ← await_json response;
        setItems data)
       (fun err =>
          setError (Some (message_or ("Failed to fetch " +:+ entityName) err));;
          console_error ("Error fetching " +:+ entityName +:+ ":") err))
    (setLoading false).

(** [items.length > 0 ? Math.max(...items.map(item => item.id || 0)) : 0]:
    the mapped list is empty exactly when [items] is, and [Math.max] is
    called on the non-empty one only. *)
Definition maxId (items : list T) : Z :=
  match (fun item : T => or_zero (id item)) <$> items with
  | x :: xs => Math_max x xs
  | [] => 0
  end.

Definition createCreateHandler
    (server : request T -> fetch_result T)
    (baseUrl : string) (items : list T) (clearFormData : T)
    (entityName : string) (itemData : T) : Eff F unit :=
  try_catch
    (setError None;;
     response ← fetch server (create_request baseUrl itemData);
     check_ok response;;
     newItem ← await_json response;
     let savedItem := with_id newItem (number_add (maxId items) 1) in
     let updatedItems := items ++ [savedItem] in
     setItems updatedItems;;
     setFormData clearFormData)
    (fun err =>
       setError (Some (message_or ("Failed to create " +:+ entityName) err));;
       console_error ("Error creating " +:+ entityName +:+ ":") err).

Definition createUpdateHandler
    (server : request T -> fetch_result T)
    (baseUrl : string) (items : list T) (clearFormData : T)
    (entityName : string) (itemData : T) : Eff F unit :=
  try_catch
    (setError None;;
     (if negb (truthy_number (id itemData))
      then throw (Error ("Cannot update " +:+ entityName +:+ " without an ID"))
      else ret tt);;
     response ← fetch server (update_request baseUrl itemData);
     check_ok response;;
     savedItem ← await_json response;
     let updatedItems :=
       (fun item : T =>
          if decide (id item = id itemData) then savedItem else item)
         <$> items in
     setItems updatedItems;;
     setFormData clearFormData)
    (fun err =>
       setError (Some (message_or ("Failed to update " +:+ entityName) err));;
       console_error ("Error updating " +:+ entityName +:+ ":") err).

Definition createDeleteHandler {B : Type}
    (server : request T -> fetch_result B)
    (baseUrl : string) (items : list T)
    (entityName : string) (n : Z) : Eff F unit :=
  try_catch
    (setError None;;
     response ← fetch server (delete_request baseUrl n);
     check_ok response;;
     let updatedItems :=
       filter (fun item : T => id item <> Some n) items in
     setItems updatedItems)
    (fun err =>
       setError (Some (message_or ("Failed to delete " +:+ entityName) err));;
       console_error ("Error deleting " +:+ entityName +:+ ":") err).

End Factories.

(** *** The state the setters act on *)

(** The four [useState] cells of a page. *)
Record PageState (F : Type) : Type := mkPageState {
  items : list (Entity F);
  loading : bool;
  error : option string;
  formData : Entity F;
}.
Arguments mkPageState {F} _ _ _ _.
Arguments items {F} _.
Arguments loading {F} _.
Arguments error {F} _.
Arguments formData {F} _.

(** The effect of one event on the page: a setter replaces its cell, a
    request and a console message leave the page alone. *)
Definition apply_event {F : Type} (s : PageState F) (e : event F) : PageState F :=
  match e with
  | SetItems l => mkPageState l (loading s) (error s) (formData s)
  | SetLoading b => mkPageState (items s) b (error s) (formData s)
  | SetError msg => mkPageState (items s) (loading s) msg (formData s)
  | SetFormData f => mkPageState (items s) (loading s) (error s) f
  | Fetch _ => s
  | ConsoleError _ _ => s
  end.

(** The page once every state update of the handler has been applied. *)
Definition settle {F A : Type} (s : PageState F) (m : Eff F A) : PageState F :=
  foldl apply_event s m.1.

(** The network requests a handler issued, in order. *)
Definition requests {F A : Type} (m : Eff F A) : list (request (Entity F)) :=
  omap (fun e => match e with Fetch r => Some r | _ => None end) m.1.

(** The outcomes of a request that the handlers treat as success: the
    promise resolves with a response whose [ok] is true ([accepts]), and
    [response.json()] resolves to [b] ([replies_with]). *)
Definition accepts {F B : Type}
    (server : request (Entity F) -> fetch_result B)
    (req : request (Entity F)) : Prop :=
  exists r, server req = Resolved r /\ ok r = true.

Definition replies_with {F B : Type}
    (server : request (Entity F) -> fetch_result B)
    (req : request (Entity F)) (b : B) : Prop :=
  exists r, server req = Resolved r /\ ok r = true /\ json r = Normal b.

(** The outcomes the handlers treat as failure: the promise rejects with
    [err], or it resolves with a response whose [ok] is false. *)
Definition rejects_with {F B : Type}
    (server : request (Entity F) -> fetch_result B)
    (req : request (Entity F)) (err : thrown) : Prop :=
  server req = Rejected err.

Definition answers_status {F B : Type}
    (server : request (Entity F) -> fetch_result B)
    (req : request (Entity F)) (code : Z) : Prop :=
  exists r, server req = Resolved r /\ ok r = false /\ status r = code.

(** A further outcome the handlers treat as failure: the response is [ok]
    but [response.json()] rejects with [err]. *)
Definition garbles {F B : Type}
    (server : request (Entity F) -> fetch_result B)
    (req : request (Entity F)) (err : thrown) : Prop :=
  exists r, server req = Resolved r /\ ok r = true /\ json r = Throw err.

End CrudActions.

Import CrudActions.

(** ** posts.tsx *)

Module Posts.

(** [interface BasePost], without the [id] that [Entity] carries;
    [extra] holds the further properties that the index signature
    [Record<string, string|number>] admits. *)
Record BasePost : Type := mkPost {
  postId : Z;
  title : text;
  body : text;
  extra : gmap string (string + Z);
}.

Definition Post : Type := Entity BasePost.

Definition baseUrl : string := "https://jsonplaceholder.typicode.com/posts".

(** [{ postId: 0, title: '', body: '' }] *)
Definition emptyPost : Post := mkEntity None (mkPost 0 [] [] ∅).

(** [useState] initial values. *)
Definition initial : PageState BasePost := mkPageState [] true None emptyPost.

Section Page.

(** The remote API, one answer per kind of body the page reads. *)
Variable listServer : request Post -> fetch_result (list Post).
Variable itemServer : request Post -> fetch_result Post.
Variable deleteServer : request Post -> fetch_result unit.

(** The state of the render the handlers were created in. *)
Variable s : PageState BasePost.

Definition handleFetchPosts : Eff BasePost unit :=
  createFetchHandler listServer baseUrl "posts".

Definition handleCreatePost : Post -> Eff BasePost unit :=
  createCreateHandler itemServer baseUrl (items s) emptyPost "post".

Definition handleUpdatePost : Post -> Eff BasePost unit :=
  createUpdateHandler itemServer baseUrl (items s) emptyPost "post".

Definition handleDeletePost : Z -> Eff BasePost unit :=
  createDeleteHandler deleteServer baseUrl (items s) "post".

Definition resetForm : Eff BasePost unit :=
  setFormData emptyPost;;
  setError None.

(** [e.preventDefault()] has no effect on the page state or the network. *)
Definition handleSubmit : Eff BasePost unit :=
  if negb (truthy_text (trim (title (fields (formData s)))))
     || negb (truthy_text (trim (body (fields (formData s)))))
  then setError (Some "Please fill in all fields")
  else
    if truthy_number (id (formData s))
    then handleUpdatePost (formData s)
    else handleCreatePost (formData s).

Definition startEdit (post : Post) : Eff BasePost unit :=
  setFormData
    (mkEntity (id post)
       (mkPost (postId (fields post)) (title (fields post))
          (body (fields post)) ∅)).

(** [const isEditing = !!formData.id] *)
Definition isEditing : bool := truthy_number (id (formData s)).

(** [{error && (<div className="error-message">Error: {error}</div>)}]:
    the message shown above the form, if any. *)
Definition errorBanner : option string :=
  match error s with
  | Some msg => if truthy_string msg then Some msg else None
  | None => None
  end.

(** [<h2>{isEditing ? "Edit Post" : "Add New Post"}</h2>] *)
Definition formHeading : string :=
  if isEditing then "Edit Post" else "Add New Post".

(** The label of the submit button. *)
Definition submitLabel : string :=
  if isEditing then "Update Post" else "Add Post".

(** [{isEditing && (<button ... onClick={resetForm}>Cancel</button>)}] *)
Definition cancelShown : bool := isEditing.

(** The three renderings of the list: the loading text, the empty-state
    text, or the table with one row (id, title, body) per post. *)
Inductive list_area : Type :=
| LoadingText
| EmptyState
| Table (rows : list (option Z * text * text)).

(** [loading ? ... : posts.length === 0 ? ... : <table>...</table>] *)
Definition listArea : list_area :=
  if loading s then LoadingText
  else if (length (items s) =? 0)%nat then EmptyState
  else Table ((fun post : Post =>
                 (id post, title (fields post), body (fields post)))
                <$> items s).

End Page.

End Posts.

(** ** users.tsx *)

Module Users.

(** [interface BaseUser], without the [id] that [Entity] carries;
    [extra] holds the further properties that the index signature
    [Record<string, string|number|boolean>] admits. *)
Record BaseUser : Type := mkUser {
  name : text;
  email : text;
  extra : gmap string (string + Z + bool);
}.

Definition User : Type := Entity BaseUser.

Definition baseUrl : string := "https://jsonplaceholder.typicode.com/users".

(** [{ name: '', email: '' }] *)
Definition emptyUser : User := mkEntity None (mkUser [] [] ∅).

Section Page.

(** Modelled from the spec: the hook [useCrudState] that the page calls
    is not among the sources.  Of what it returns, [handleCreate] and
    [handleUpdate] are left arbitrary, [formData] is the form draft of
    the page state [s], and [setError] and [setFormData] are the
    setters of the page's error message and form draft. *)
Variable handleCreate : User -> Eff BaseUser unit.
Variable handleUpdate : User -> Eff BaseUser unit.
Variable s : PageState BaseUser.

(** [e.preventDefault()] has no effect on the page state or the network. *)
Definition handleSubmit : Eff BaseUser unit :=
  if negb (truthy_text (trim (name (fields (formData s)))))
     || negb (truthy_text (trim (email (fields (formData s)))))
  then setError (Some "Please fill in all fields")
  else
    if truthy_number (id (formData s))
    then handleUpdate (formData s)
    else handleCreate (formData s).

Definition startEdit (user : User) : Eff BaseUser unit :=
  setFormData
    (mkEntity (id user) (mkUser (name (fields user)) (email (fields user)) ∅)).

(** [const isEditing = !!formData.id] *)
Definition isEditing : bool := truthy_number (id (formData s)).

End Page.

End Users.

(** ** Required text fields *)

(** A text that is empty or consists of white space only. *)
Fixpoint blank (s : text) : bool :=
  match s with
  | [] => true
  | c :: s' => is_white_space c && blank s'
  end.

(** ** The lists of the specification's scenarios *)

Module Scenario.

Import Users.

(** [{ id: n, name: nm, email: em }] *)
Definition user (n : Z) (nm em : string) : User :=
  mkEntity (Some n) (mkUser (lit nm) (lit em) ∅).

(** A form draft without identifier: [{ name: nm, email: em }] *)
Definition draft (nm em : string) : User :=
  mkEntity None (mkUser (lit nm) (lit em) ∅).

(** [[{ id: 1, name: "A" }, { id: 3, name: "B" }]] *)
Definition listAB : list User :=
  [user 1 "A" "a@example.com"; user 3 "B" "b@example.com"].

(** A list in which the identifier 3 occurs twice. *)
Definition listDup : list User :=
  [user 3 "B" "b@example.com"; user 3 "C" "c@example.com"].

(** A page showing [l], idle, with the form draft [f]. *)
Definition showing (l : list User) (f : User) : PageState BaseUser :=
  mkPageState l false None f.

(** A remote side that answers every request with [code] and body [b]. *)
Definition always {B : Type} (code : Z) (b : B) :
    request User -> fetch_result B :=
  fun _ => Resolved (mkResponse code (Normal b)).

(** A remote side that echoes the submitted item with status 200, as the
    mock API does for [PUT]. *)
Definition echo (fallback : User) : request User -> fetch_result User :=
  fun req => Resolved (mkResponse 200 (Normal (default fallback (body req)))).

(** [{ id: n, postId: 1, title: t, body: b }] *)
Definition post (n : Z) (t b : string) : Posts.Post :=
  mkEntity (Some n) (Posts.mkPost 1 (lit t) (lit b) ∅).

(** A post as the remote API lists it, with a further property. *)
Definition postWithExtra (n : Z) (t b : string) : Posts.Post :=
  mkEntity (Some n) (Posts.mkPost 1 (lit t) (lit b) {[ "userId" := inr 7 ]}).

(** A remote side for posts that echoes the submitted item. *)
Definition echoPost : request Posts.Post -> fetch_result Posts.Post :=
  fun req => Resolved (mkResponse 200 (Normal (default Posts.emptyPost (body req)))).

(** A remote side that answers every request with [code] and a body that
    does not parse. *)
Definition unparsable {T B : Type} (code : Z) (msg : string) :
    request T -> fetch_result B :=
  fun _ => Resolved (mkResponse code (Throw (Error msg))).

(** A remote side, for any resource, that answers every request with
    [code] and body [b]. *)
Definition answer {T B : Type} (code : Z) (b : B) :
    request T -> fetch_result B :=
  fun _ => Resolved (mkResponse code (Normal b)).

(** A remote side that cannot be reached. *)
Definition unreachable {T B : Type} (msg : string) :
    request T -> fetch_result B :=
  fun _ => Rejected (Error msg).

End Scenario.

(** * Properties *)

(** ** The JavaScript fragments at work *)

(** [trim] removes the Unicode white space of ECMAScript at both ends, and
    only there; U+200B is not white space. *)
Example trim_unicode :
  trim [160; 12288; 65279; 65; 32; 66; 8233; 10]%N = [65; 32; 66]%N /\
  blank [160; 5760; 8239; 8287; 12288]%N = true /\
  blank [8203]%N = false.
Proof. repeat split. Qed.

(** From 2^53 on, adding 1 rounds: to the even neighbour. *)
Example number_add_rounds :
  number_add (2 ^ 53 - 1) 1 = 2 ^ 53 /\
  number_add (2 ^ 53) 1 = 2 ^ 53 /\
  number_add (2 ^ 53 + 2) 1 = 2 ^ 53 + 4 /\
  number_add (- 2 ^ 53) 1 = - 2 ^ 53 + 1 /\
  number_add (- 2 ^ 60) 1 = - 2 ^ 60.
Proof. repeat split. Qed.

(** Numbers print as JavaScript prints them. *)
Example to_string_examples :
  to_string 500 = "500" /\
  to_string (-5) = "-5" /\
  to_string (2 ^ 53) = "9007199254740992" /\
  to_string (2 ^ 64) = "18446744073709552000" /\
  to_string (10 ^ 21) = "1e+21" /\
  to_string (2 ^ 70) = "1.1805916207174113e+21" /\
  to_string (- 2 ^ 100) = "-1.2676506002282294e+30".
Proof. repeat split; vm_compute; reflexivity. Qed.

(** ** What each handler does on each outcome of its request *)

Ltac run_handler :=
  unfold mbind, eff_bind, bind, try_catch, try_finally, fetch, check_ok,
    await_json, setItems, setLoading, setError, setFormData, console_error,
    emit, throw, ret;
  cbn.

Section Outcomes.

Context {F : Type}.
Implicit Types (items : list (Entity F)) (itemData newItem savedItem : Entity F).
Implicit Types (baseUrl entityName : string).

Lemma fetch_handler_success (server : request (Entity F) -> fetch_result (list (Entity F)))
    baseUrl entityName data :
  replies_with server (list_request baseUrl) data ->
  createFetchHandler server baseUrl entityName =
    ([SetLoading true; SetError None; Fetch (list_request baseUrl);
      SetItems data; SetLoading false], Normal tt).
Proof.
  intros (r & Hr & Hok & Hjson).
  unfold createFetchHandler. run_handler.
  rewrite Hr, Hok. cbn. rewrite Hjson. reflexivity.
Qed.

Lemma fetch_handler_rejected (server : request (Entity F) -> fetch_result (list (Entity F)))
    baseUrl entityName err :
  rejects_with server (list_request baseUrl) err ->
  createFetchHandler server baseUrl entityName =
    ([SetLoading true; SetError None; Fetch (list_request baseUrl);
      SetError (Some (message_or ("Failed to fetch " +:+ entityName) err));
      ConsoleError ("Error fetching " +:+ entityName +:+ ":") err;
      SetLoading false], Normal tt).
Proof.
  unfold rejects_with. intros Hr.
  unfold createFetchHandler. run_handler.
  rewrite Hr. reflexivity.
Qed.

Lemma fetch_handler_status (server : request (Entity F) -> fetch_result (list (Entity F)))
    baseUrl entityName code :
  answers_status server (list_request baseUrl) code ->
  createFetchHandler server baseUrl entityName =
    ([SetLoading true; SetError None; Fetch (list_request baseUrl);
      SetError (Some ("HTTP error! status: " +:+ to_string code));
      ConsoleError ("Error fetching " +:+ entityName +:+ ":")
        (Error ("HTTP error! status: " +:+ to_string code));
      SetLoading false], Normal tt).
Proof.
  intros (r & Hr & Hok & Hcode).
  unfold createFetchHandler. run_handler.
  rewrite Hr, Hok, Hcode. reflexivity.
Qed.

Lemma create_handler_success (server : request (Entity F) -> fetch_result (Entity F))
    baseUrl items clearFormData entityName itemData newItem :
  replies_with server (create_request baseUrl itemData) newItem ->
  createCreateHandler server baseUrl items clearFormData entityName itemData =
    ([SetError None; Fetch (create_request baseUrl itemData);
      SetItems (items ++ [with_id newItem (number_add (maxId items) 1)]);
      SetFormData clearFormData], Normal tt).
Proof.
  intros (r & Hr & Hok & Hjson).
  unfold createCreateHandler. run_handler.
  rewrite Hr, Hok. cbn. rewrite Hjson. reflexivity.
Qed.

Lemma update_handler_no_id (server : request (Entity F) -> fetch_result (Entity F))
    baseUrl items clearFormData entityName itemData :
  truthy_number (id itemData) = false ->
  createUpdateHandler server baseUrl items clearFormData entityName itemData =
    ([SetError None;
      SetError (Some ("Cannot update " +:+ entityName +:+ " without an ID"));
      ConsoleError ("Error updating " +:+ entityName +:+ ":")
        (Error ("Cannot update " +:+ entityName +:+ " without an ID"))],
     Normal tt).
Proof.
  intros Hid. unfold createUpdateHandler. run_handler.
  rewrite Hid. reflexivity.
Qed.

Lemma update_handler_success (server : request (Entity F) -> fetch_result (Entity F))
    baseUrl items clearFormData entityName itemData savedItem :
  truthy_number (id itemData) = true ->
  replies_with server (update_request baseUrl itemData) savedItem ->
  createUpdateHandler server baseUrl items clearFormData entityName itemData =
    ([SetError None; Fetch (update_request baseUrl itemData);
      SetItems ((fun item : Entity F =>
                   if decide (id item = id itemData) then savedItem else item)
                  <$> items);
      SetFormData clearFormData], Normal tt).
Proof.
  intros Hid (r & Hr & Hok & Hjson).
  unfold createUpdateHandler. run_handler.
  rewrite Hid. cbn. rewrite Hr, Hok. cbn. rewrite Hjson. reflexivity.
Qed.

Lemma delete_handler_success {B : Type} (server : request (Entity F) -> fetch_result B)
    baseUrl items entityName (n : Z) :
  accepts server (delete_request baseUrl n) ->
  createDeleteHandler server baseUrl items entityName n =
    ([SetError None; Fetch (delete_request baseUrl n);
      SetItems (filter (fun item : Entity F => id item <> Some n) items)],
     Normal tt).
Proof.
  intros (r & Hr & Hok).
  unfold createDeleteHandler. run_handler.
  rewrite Hr, Hok. reflexivity.
Qed.

End Outcomes.

(** ** The identifier that create synthesizes *)

(** Up to 2^53 the sum is exact. *)
Lemma round_double_small (z : Z) : Z.abs z <= 2 ^ 53 -> round_double z = z.
Proof.
  intros Hz. unfold round_double.
  destruct (Z.leb_spec (Z.abs z) (2 ^ 53)); [reflexivity|lia].
Qed.

Lemma number_add_safe (m : Z) :
  is_safe_integer m = true -> number_add m 1 = m + 1.
Proof.
  unfold is_safe_integer, number_add. intros Hm.
  apply Z.leb_le in Hm. apply round_double_small.
  change (2 ^ 53) with 9007199254740992 in *. lia.
Qed.




Lemma or_zero_default (n : option Z) : or_zero n = default 0 n.
Proof.
  destruct n as [z|]; cbn; [|reflexivity].
  destruct (Z.eqb_spec z 0); cbn; congruence.
Qed.

Lemma Math_max_lower (xs : list Z) (x : Z) : x <= Math_max x xs.
Proof.
  unfold Math_max. revert x.
  induction xs as [|y xs IH]; intros x; cbn; [lia|].
  specialize (IH (Z.max x y)). lia.
Qed.

Lemma Math_max_upper (xs : list Z) (x y : Z) : y ∈ xs -> y <= Math_max x xs.
Proof.
  unfold Math_max. revert x.
  induction xs as [|z xs IH]; intros x Hy; cbn.
  - inversion Hy.
  - apply elem_of_cons in Hy as [->|Hy].
    + pose proof (Math_max_lower xs (Z.max x z)) as Hl.
      unfold Math_max in Hl. lia.
    + apply IH, Hy.
Qed.

Lemma Math_max_attained (xs : list Z) (x : Z) : Math_max x xs ∈ x :: xs.
Proof.
  unfold Math_max. revert x.
  induction xs as [|z xs IH]; intros x; cbn.
  - left.
  - specialize (IH (Z.max x z)).
    apply elem_of_cons in IH as [Hm|Hm].
    + rewrite Hm. destruct (Z.max_spec x z) as [[_ ->]|[_ ->]].
      * right; left.
      * left.
    + right; right; exact Hm.
Qed.

Section MaxId.

Context {F : Type}.
Implicit Types (items : list (Entity F)) (x : Entity F).

Lemma maxId_nil : maxId (F:=F) [] = 0.
Proof. reflexivity. Qed.

Lemma maxId_upper items x : x ∈ items -> default 0 (id x) <= maxId items.
Proof.
  intros Hx. rewrite <- or_zero_default. unfold maxId.
  apply (list_elem_of_fmap_2 (fun item : Entity F => or_zero (id item))) in Hx.
  destruct ((fun item : Entity F => or_zero (id item)) <$> items) as [|y ys].
  - inversion Hx.
  - apply elem_of_cons in Hx as [->|Hx].
    + apply Math_max_lower.
    + apply Math_max_upper, Hx.
Qed.

Lemma maxId_attained items :
  items <> [] -> exists x, x ∈ items /\ default 0 (id x) = maxId items.
Proof.
  intros Hne. unfold maxId.
  destruct ((fun item : Entity F => or_zero (id item)) <$> items)
    as [|y ys] eqn:E.
  - apply fmap_nil_inv in E. contradiction.
  - pose proof (Math_max_attained ys y) as Hm.
    rewrite <- E in Hm.
    apply list_elem_of_fmap in Hm as (x & Hx & Hin).
    exists x. split; [exact Hin|].
    rewrite <- or_zero_default. symmetry. exact Hx.
Qed.

(** Every identifier carried by the list is below the synthesized one. *)
Lemma maxId_fresh items x :
  is_safe_integer (maxId items) = true ->
  x ∈ items -> id x <> Some (number_add (maxId items) 1).
Proof.
  intros Hsafe Hx Heq. rewrite (number_add_safe _ Hsafe) in Heq.
  apply maxId_upper in Hx. rewrite Heq in Hx. cbn in Hx. lia.
Qed.

End MaxId.

(** ** Create *)

(** C1, amended.  A successful create appends exactly one element to the
    list the handler closed over.  Its identifier is the number [m + 1],
    where [m] is the maximum over that list of [id || 0] (an element without
    identifier counting as 0, and [m] being 0 for the empty list); the sum
    is a double, and is exactly one more than [m] when [m] is a safe
    integer.  When every element carries an identifier, [m] is the maximum
    identifier present.  The other properties of the element are those of
    the server's representation, and the form draft becomes the caller's
    empty template.  On [[{id:1,name:"A"},{id:3,name:"B"}]] the appended
    element has identifier 4 and the list has length 3. *)
Theorem create_appends_next_id :
  (forall (F : Type) (server : request (Entity F) -> fetch_result (Entity F))
      (baseUrl entityName : string) (s : PageState F)
      (clearFormData itemData newItem : Entity F),
      replies_with server (create_request baseUrl itemData) newItem ->
      let s' :=
        settle s (createCreateHandler server baseUrl (items s) clearFormData
                    entityName itemData) in
      exists (saved : Entity F) (m : Z),
        items s' = items s ++ [saved] /\
        length (items s') = S (length (items s)) /\
        id saved = Some (number_add m 1) /\
        (is_safe_integer m = true -> id saved = Some (m + 1)) /\
        fields saved = fields newItem /\
        (items s = [] -> m = 0) /\
        (items s <> [] -> exists x, x ∈ items s /\ default 0 (id x) = m) /\
        (forall x, x ∈ items s -> default 0 (id x) <= m) /\
        (items s <> [] ->
         (forall x, x ∈ items s -> id x <> None) ->
         (exists x, x ∈ items s /\ id x = Some m) /\
         (forall x z, x ∈ items s -> id x = Some z -> z <= m)) /\
        formData s' = clearFormData /\
        error s' = None)
  /\
  (forall (server : request Users.User -> fetch_result Users.User)
      (f newItem : Users.User),
      replies_with server (create_request Users.baseUrl (Scenario.draft "C" "c@example.com")) newItem ->
      let s' :=
        settle (Scenario.showing Scenario.listAB f)
          (createCreateHandler server Users.baseUrl Scenario.listAB
             Users.emptyUser "user" (Scenario.draft "C" "c@example.com")) in
      items s' = Scenario.listAB ++ [with_id newItem 4] /\
      length (items s') = 3%nat).
Proof.
  split.
  - intros F server baseUrl entityName s clearFormData itemData newItem Hok s'.
    subst s'. rewrite (create_handler_success _ _ _ _ _ _ _ Hok).
    exists (with_id newItem (number_add (maxId (items s)) 1)), (maxId (items s)).
    cbn.
    split; [reflexivity|]. split; [rewrite length_app; cbn; lia|].
    split; [reflexivity|].
    split; [intros Hsafe; rewrite (number_add_safe _ Hsafe); reflexivity|].
    split; [reflexivity|]. split; [intros ->; reflexivity|].
    split; [apply maxId_attained|]. split; [intros x; apply maxId_upper|].
    split; [|split; reflexivity].
    intros Hne Hall. split.
    + destruct (maxId_attained (items s) Hne) as (x & Hx & Hm).
      exists x. split; [exact Hx|].
      destruct (id x) as [z|] eqn:Hid; [cbn in Hm; congruence|].
      exfalso. apply (Hall x Hx). exact Hid.
    + intros x z Hx Hid. pose proof (maxId_upper (items s) x Hx) as Hu.
      rewrite Hid in Hu. exact Hu.
  - intros server f newItem Hok s'.
    subst s'. rewrite (create_handler_success _ _ _ _ _ _ _ Hok).
    split; reflexivity.
Qed.

Lemma create_appends_next_id_witness :
  replies_with (Scenario.always 201 (Scenario.user 11 "C" "c@example.com"))
    (create_request Users.baseUrl (Scenario.draft "C" "c@example.com"))
    (Scenario.user 11 "C" "c@example.com") /\
  items
    (settle (Scenario.showing Scenario.listAB (Scenario.draft "C" "c@example.com"))
       (createCreateHandler
          (Scenario.always 201 (Scenario.user 11 "C" "c@example.com"))
          Users.baseUrl Scenario.listAB Users.emptyUser "user"
          (Scenario.draft "C" "c@example.com")))
  = Scenario.listAB ++ [Scenario.user 4 "C" "c@example.com"].
Proof.
  assert (H : replies_with
                (Scenario.always 201 (Scenario.user 11 "C" "c@example.com"))
                (create_request Users.baseUrl (Scenario.draft "C" "c@example.com"))
                (Scenario.user 11 "C" "c@example.com")).
  { eexists. split; [reflexivity|]. split; reflexivity. }
  split; [exact H|].
  exact (proj1 (proj2 create_appends_next_id _ _ _ H)).
Defined.

(** C1 as stated fails twice.  On a list whose only identifier is -5 and
    which also holds an element without identifier, the appended element
    gets the identifier 1, not -4: the element without identifier counts as
    0 in the maximum.  On a list whose maximum identifier is 2^53, the
    appended element gets the identifier 2^53 again: the sum 2^53 + 1 is
    not a double and rounds back. *)
Lemma create_next_id_exceptions :
  (let l := [Scenario.draft "N" "n@example.com";
             Scenario.user (-5) "A" "a@example.com"] in
   let itemData := Scenario.draft "C" "c@example.com" in
   replies_with (Scenario.echo Users.emptyUser)
     (create_request Users.baseUrl itemData) itemData /\
   (forall x z, x ∈ l -> id x = Some z -> z = -5) /\
   items
     (settle (Scenario.showing l itemData)
        (createCreateHandler (Scenario.echo Users.emptyUser) Users.baseUrl l
           Users.emptyUser "user" itemData))
   = l ++ [Scenario.user 1 "C" "c@example.com"] /\
   1 <> -5 + 1)
  /\
  (let l := [Scenario.user (2 ^ 53) "A" "a@example.com"] in
   let itemData := Scenario.draft "C" "c@example.com" in
   replies_with (Scenario.echo Users.emptyUser)
     (create_request Users.baseUrl itemData) itemData /\
   items
     (settle (Scenario.showing l itemData)
        (createCreateHandler (Scenario.echo Users.emptyUser) Users.baseUrl l
           Users.emptyUser "user" itemData))
   = l ++ [Scenario.user (2 ^ 53) "C" "c@example.com"] /\
   2 ^ 53 <> 2 ^ 53 + 1).
Proof.
  cbv zeta. split.
  - split; [eexists; split; [reflexivity|split; reflexivity]|].
    split; [|split; [reflexivity|discriminate]].
    intros x z Hx Hid.
    apply elem_of_cons in Hx as [->|Hx]; [discriminate Hid|].
    apply list_elem_of_singleton in Hx as ->.
    injection Hid as <-. reflexivity.
  - split; [eexists; split; [reflexivity|split; reflexivity]|].
    split; [reflexivity|discriminate].
Qed.

(** ** Update *)

(** C3.  An update whose item has no identifier, or the identifier 0, fails
    fast: the handler issues no request, the page's error becomes
    "Cannot update <entity> without an ID", and the list, the form draft and
    the loading flag are left as they were. *)
Theorem update_without_id_fails_fast
    (F : Type) (server : request (Entity F) -> fetch_result (Entity F))
    (baseUrl entityName : string) (s : PageState F)
    (clearFormData itemData : Entity F) :
  id itemData = None \/ id itemData = Some 0 ->
  let h :=
    createUpdateHandler server baseUrl (items s) clearFormData entityName
      itemData in
  requests h = [] /\
  settle s h =
    mkPageState (items s) (loading s)
      (Some ("Cannot update " +:+ entityName +:+ " without an ID"))
      (formData s).
Proof.
  intros Hid h.
  assert (Hfalsy : truthy_number (id itemData) = false)
    by (destruct Hid as [-> | ->]; reflexivity).
  subst h. rewrite (update_handler_no_id _ _ _ _ _ _ Hfalsy).
  split; reflexivity.
Qed.

Lemma update_without_id_fails_fast_witness :
  (id (Scenario.draft "B2" "b@example.com") = None \/
   id (Scenario.draft "B2" "b@example.com") = Some 0) /\
  requests
    (createUpdateHandler (Scenario.echo Users.emptyUser) Users.baseUrl
       Scenario.listAB Users.emptyUser "user"
       (Scenario.draft "B2" "b@example.com")) = [] /\
  settle (Scenario.showing Scenario.listAB (Scenario.draft "B2" "b@example.com"))
    (createUpdateHandler (Scenario.echo Users.emptyUser) Users.baseUrl
       Scenario.listAB Users.emptyUser "user"
       (Scenario.draft "B2" "b@example.com")) =
  mkPageState Scenario.listAB false
    (Some "Cannot update user without an ID")
    (Scenario.draft "B2" "b@example.com").
Proof.
  split; [left; reflexivity|].
  exact (update_without_id_fails_fast Users.BaseUser
           (Scenario.echo Users.emptyUser) Users.baseUrl "user"
           (Scenario.showing Scenario.listAB (Scenario.draft "B2" "b@example.com"))
           Users.emptyUser (Scenario.draft "B2" "b@example.com")
           (or_introl eq_refl)).
Defined.

Section Replace.

Context {F : Type}.
Implicit Types (l : list (Entity F)) (saved old : Entity F) (k : option Z).

(** The [map] of update, element by element. *)
Lemma replace_lookup l k saved (j : nat) :
  ((fun item : Entity F => if decide (id item = k) then saved else item) <$> l) !! j
  = (fun item : Entity F => if decide (id item = k) then saved else item) <$> (l !! j).
Proof. apply list_lookup_fmap. Qed.

(** Nothing matches: the [map] is the identity. *)
Lemma replace_none l k saved :
  (forall x, x ∈ l -> id x <> k) ->
  (fun item : Entity F => if decide (id item = k) then saved else item) <$> l = l.
Proof.
  induction l as [|y l IH]; intros Hno; cbn; [reflexivity|].
  destruct (decide (id y = k)) as [Heq|_].
  - exfalso. apply (Hno y); [left|exact Heq].
  - f_equal. apply IH. intros x Hx. apply Hno. right. exact Hx.
Qed.

(** With pairwise distinct identifiers the [map] is an update in place. *)
Lemma replace_one l k saved old (i : nat) :
  NoDup (id <$> l) ->
  l !! i = Some old -> id old = k ->
  (fun item : Entity F => if decide (id item = k) then saved else item) <$> l
  = <[i := saved]> l.
Proof.
  intros Hnd Hi Hk. apply list_eq. intros j.
  rewrite replace_lookup.
  destruct (decide (j = i)) as [->|Hne].
  - rewrite list_lookup_insert_eq by (eapply lookup_lt_Some; exact Hi).
    rewrite Hi. cbn. destruct (decide (id old = k)); [reflexivity|contradiction].
  - rewrite list_lookup_insert_ne by (intros ->; contradiction).
    destruct (l !! j) as [y|] eqn:Hj; cbn; [|reflexivity].
    destruct (decide (id y = k)) as [Hy|_]; [|reflexivity].
    exfalso. apply Hne.
    apply (NoDup_lookup (id <$> l) j i k Hnd).
    + rewrite list_lookup_fmap, Hj. cbn. congruence.
    + rewrite list_lookup_fmap, Hi. cbn. congruence.
Qed.

End Replace.

(** C9.  A successful update whose non-zero identifier matches no element
    leaves the list as it was, yet clears the form draft to the empty
    template and records no error. *)
Theorem update_unknown_id_keeps_list
    (F : Type) (server : request (Entity F) -> fetch_result (Entity F))
    (baseUrl entityName : string) (s : PageState F)
    (clearFormData itemData savedItem : Entity F) :
  truthy_number (id itemData) = true ->
  (forall x, x ∈ items s -> id x <> id itemData) ->
  replies_with server (update_request baseUrl itemData) savedItem ->
  let s' :=
    settle s (createUpdateHandler server baseUrl (items s) clearFormData
                entityName itemData) in
  items s' = items s /\
  formData s' = clearFormData /\
  error s' = None.
Proof.
  intros Hid Hno Hok s'. subst s'.
  rewrite (update_handler_success _ _ _ _ _ _ _ Hid Hok). cbn.
  rewrite replace_none by exact Hno. repeat split.
Qed.

Lemma update_unknown_id_keeps_list_witness :
  let itemData := Scenario.user 7 "Z" "z@example.com" in
  let s := Scenario.showing Scenario.listAB itemData in
  let s' :=
    settle s (createUpdateHandler (Scenario.echo Users.emptyUser) Users.baseUrl
                (items s) Users.emptyUser "user" itemData) in
  truthy_number (id itemData) = true /\
  (forall x, x ∈ items s -> id x <> id itemData) /\
  replies_with (Scenario.echo Users.emptyUser)
    (update_request Users.baseUrl itemData) itemData /\
  items s' = Scenario.listAB /\
  formData s' = Users.emptyUser /\
  error s' = None.
Proof.
  cbv zeta.
  assert (Hno : forall x : Entity Users.BaseUser,
             x ∈ items (Scenario.showing Scenario.listAB
                          (Scenario.user 7 "Z" "z@example.com")) ->
             id x <> id (Scenario.user 7 "Z" "z@example.com")).
  { intros x Hx. cbn in Hx.
    apply elem_of_cons in Hx as [->|Hx]; [discriminate|].
    apply elem_of_cons in Hx as [->|Hx]; [discriminate|].
    inversion Hx. }
  assert (Hok : replies_with (Scenario.echo Users.emptyUser)
                  (update_request Users.baseUrl (Scenario.user 7 "Z" "z@example.com"))
                  (Scenario.user 7 "Z" "z@example.com")).
  { eexists. split; [reflexivity|]. split; reflexivity. }
  split; [reflexivity|]. split; [exact Hno|]. split; [exact Hok|].
  exact (update_unknown_id_keeps_list Users.BaseUser
           (Scenario.echo Users.emptyUser) Users.baseUrl "user"
           (Scenario.showing Scenario.listAB (Scenario.user 7 "Z" "z@example.com"))
           Users.emptyUser (Scenario.user 7 "Z" "z@example.com")
           (Scenario.user 7 "Z" "z@example.com") eq_refl Hno Hok).
Defined.

(** C4, amended.  On a list whose identifiers are pairwise distinct, a
    successful update whose identifier matches an element replaces exactly
    one element, the one at the position of the match, by the server's
    representation; every other position keeps its element, the length is
    unchanged, and the form draft becomes the empty template.  On
    [[{id:1,name:"A"},{id:3,name:"B"}]], updating the element 3 leaves the
    element 1 in place and puts the server's representation second. *)
Theorem update_replaces_one :
  (forall (F : Type) (server : request (Entity F) -> fetch_result (Entity F))
      (baseUrl entityName : string) (s : PageState F)
      (clearFormData itemData savedItem : Entity F),
      truthy_number (id itemData) = true ->
      replies_with server (update_request baseUrl itemData) savedItem ->
      NoDup (id <$> items s) ->
      (exists x, x ∈ items s /\ id x = id itemData) ->
      let s' :=
        settle s (createUpdateHandler server baseUrl (items s) clearFormData
                    entityName itemData) in
      exists (i : nat) (old : Entity F),
        items s !! i = Some old /\
        id old = id itemData /\
        items s' !! i = Some savedItem /\
        (forall j, j <> i -> items s' !! j = items s !! j) /\
        (forall j y, items s !! j = Some y -> id y = id itemData -> j = i) /\
        length (items s') = length (items s) /\
        formData s' = clearFormData)
  /\
  (forall (server : request Users.User -> fetch_result Users.User)
      (f savedItem : Users.User),
      replies_with server
        (update_request Users.baseUrl (Scenario.user 3 "B2" "b@example.com"))
        savedItem ->
      items
        (settle (Scenario.showing Scenario.listAB f)
           (createUpdateHandler server Users.baseUrl Scenario.listAB
              Users.emptyUser "user" (Scenario.user 3 "B2" "b@example.com")))
      = [Scenario.user 1 "A" "a@example.com"; savedItem]).
Proof.
  split.
  - intros F server baseUrl entityName s clearFormData itemData savedItem
      Hid Hok Hnd (x & Hx & Hidx) s'.
    apply list_elem_of_lookup in Hx as (i & Hi).
    exists i, x. subst s'.
    rewrite (update_handler_success _ _ _ _ _ _ _ Hid Hok). cbn.
    rewrite (replace_one _ _ savedItem x i Hnd Hi Hidx).
    split; [exact Hi|]. split; [exact Hidx|].
    split; [apply list_lookup_insert_eq; eapply lookup_lt_Some; exact Hi|].
    split; [intros j Hj; apply list_lookup_insert_ne; congruence|].
    split; [|split; [apply length_insert|reflexivity]].
    intros j y Hj Hy.
    apply (NoDup_lookup (id <$> items s) j i (id itemData) Hnd).
    + rewrite list_lookup_fmap, Hj. cbn. congruence.
    + rewrite list_lookup_fmap, Hi. cbn. congruence.
  - intros server f savedItem Hok.
    rewrite (update_handler_success server Users.baseUrl Scenario.listAB
               Users.emptyUser "user" (Scenario.user 3 "B2" "b@example.com")
               savedItem eq_refl Hok).
    reflexivity.
Qed.

Lemma update_replaces_one_witness :
  let itemData := Scenario.user 3 "B2" "b@example.com" in
  replies_with (Scenario.echo Users.emptyUser)
    (update_request Users.baseUrl itemData) itemData /\
  items
    (settle (Scenario.showing Scenario.listAB itemData)
       (createUpdateHandler (Scenario.echo Users.emptyUser) Users.baseUrl
          Scenario.listAB Users.emptyUser "user" itemData))
  = [Scenario.user 1 "A" "a@example.com"; Scenario.user 3 "B2" "b@example.com"].
Proof.
  cbv zeta.
  assert (Hok : replies_with (Scenario.echo Users.emptyUser)
                  (update_request Users.baseUrl (Scenario.user 3 "B2" "b@example.com"))
                  (Scenario.user 3 "B2" "b@example.com")).
  { eexists. split; [reflexivity|]. split; reflexivity. }
  split; [exact Hok|].
  exact (proj2 update_replaces_one (Scenario.echo Users.emptyUser)
           (Scenario.user 3 "B2" "b@example.com")
           (Scenario.user 3 "B2" "b@example.com") Hok).
Defined.

(** C4 as stated fails where an identifier occurs twice, a list that a
    successful fetch can deliver: the update replaces both elements that
    carry the submitted identifier, so no single position accounts for the
    change. *)
Lemma update_replaces_every_match :
  let itemData := Scenario.user 3 "B2" "b@example.com" in
  let old := Scenario.listDup in
  let new :=
    items
      (settle (Scenario.showing old itemData)
         (createUpdateHandler (Scenario.echo Users.emptyUser) Users.baseUrl old
            Users.emptyUser "user" itemData)) in
  items
    (settle (Scenario.showing [] Users.emptyUser)
       (createFetchHandler (Scenario.always 200 old) Users.baseUrl "users"))
  = old /\
  truthy_number (id itemData) = true /\
  replies_with (Scenario.echo Users.emptyUser)
    (update_request Users.baseUrl itemData) itemData /\
  (exists x, x ∈ old /\ id x = id itemData) /\
  new = [itemData; itemData] /\
  ~ (exists i : nat, forall j : nat, j <> i -> new !! j = old !! j).
Proof.
  cbv zeta.
  split; [reflexivity|]. split; [reflexivity|].
  split; [eexists; split; [reflexivity|split; reflexivity]|].
  split; [eexists; split; [left|reflexivity]|].
  split; [reflexivity|].
  intros [[|i] H].
  - specialize (H 1%nat ltac:(lia)). discriminate H.
  - specialize (H 0%nat ltac:(lia)). discriminate H.
Qed.

(** ** Delete *)

Section Remove.

Context {F : Type}.
Implicit Types (l : list (Entity F)) (n : Z).

(** The elements dropped and the elements kept make up the list. *)
Lemma remove_length l n :
  length l =
    (length (filter (fun item : Entity F => id item <> Some n) l)
     + length (filter (fun item : Entity F => id item = Some n) l))%nat.
Proof.
  induction l as [|y l IH]; [reflexivity|].
  rewrite !filter_cons.
  destruct (decide (id y <> Some n)) as [Hne|Heq];
    destruct (decide (id y = Some n)) as [He|Hn]; cbn; try lia.
  - contradiction.
  - exfalso. apply Heq. exact Hn.
Qed.

(** Nothing matches: the [filter] keeps the whole list. *)
Lemma remove_none l n :
  (forall x, x ∈ l -> id x <> Some n) ->
  filter (fun item : Entity F => id item <> Some n) l = l.
Proof.
  induction l as [|y l IH]; intros Hno; [reflexivity|].
  rewrite filter_cons.
  destruct (decide (id y <> Some n)) as [_|Heq].
  - f_equal. apply IH. intros x Hx. apply Hno. right. exact Hx.
  - exfalso. apply Heq, Hno. left.
Qed.

(** With pairwise distinct identifiers a match is dropped alone. *)
Lemma remove_one l n :
  NoDup (id <$> l) ->
  (exists x, x ∈ l /\ id x = Some n) ->
  length l = S (length (filter (fun item : Entity F => id item <> Some n) l)).
Proof.
  induction l as [|y l IH]; intros Hnd (x & Hx & Hid).
  - inversion Hx.
  - rewrite fmap_cons in Hnd. apply NoDup_cons in Hnd as [Hy Hnd].
    rewrite filter_cons.
    destruct (decide (id y <> Some n)) as [Hne|Heq].
    + cbn. f_equal. apply IH; [exact Hnd|].
      apply elem_of_cons in Hx as [->|Hx]; [contradiction|].
      exists x. split; assumption.
    + assert (Hyn : id y = Some n)
        by (destruct (decide (id y = Some n)); [assumption|contradiction]).
      cbn. f_equal. rewrite remove_none; [reflexivity|].
      intros z Hz Hzn. apply Hy. rewrite Hyn, <- Hzn.
      apply list_elem_of_fmap_2. exact Hz.
Qed.

(** Dropping elements keeps identifiers pairwise distinct. *)
Lemma remove_NoDup l n :
  NoDup (id <$> l) ->
  NoDup (id <$> filter (fun item : Entity F => id item <> Some n) l).
Proof.
  induction l as [|y l IH]; intros Hnd; [constructor|].
  rewrite fmap_cons in Hnd. apply NoDup_cons in Hnd as [Hy Hnd].
  rewrite filter_cons.
  destruct (decide (id y <> Some n)) as [Hne|Heq]; [|apply IH, Hnd].
  rewrite fmap_cons. apply NoDup_cons. split; [|apply IH, Hnd].
  intros Hin. apply Hy.
  apply list_elem_of_fmap in Hin as (z & Hz & Hzin).
  apply list_elem_of_filter in Hzin as [_ Hzin].
  rewrite Hz. apply list_elem_of_fmap_2. exact Hzin.
Qed.

End Remove.

(** C5, amended.  After a successful delete of [n] no element of the list
    carries the identifier [n]; the elements with other identifiers are
    kept, in their order; the length decreases by the number of elements
    that carried [n], which is exactly one when the identifiers of the list
    are pairwise distinct and one of them is [n], and the list is unchanged
    when none is.  Deleting 1 from [[{id:1,name:"A"},{id:3,name:"B"}]]
    leaves [[{id:3,name:"B"}]]. *)
Theorem delete_removes_matching :
  (forall (F B : Type) (server : request (Entity F) -> fetch_result B)
      (baseUrl entityName : string) (s : PageState F) (n : Z),
      accepts server (delete_request baseUrl n) ->
      let s' :=
        settle s (createDeleteHandler server baseUrl (items s) entityName n) in
      (forall x, x ∈ items s' -> id x <> Some n) /\
      (forall x, id x <> Some n -> (x ∈ items s' <-> x ∈ items s)) /\
      items s' `sublist_of` items s /\
      length (items s) =
        (length (items s')
         + length (filter (fun item : Entity F => id item = Some n) (items s)))%nat /\
      (NoDup (id <$> items s) ->
       (exists x, x ∈ items s /\ id x = Some n) ->
       length (items s) = S (length (items s'))) /\
      ((forall x, x ∈ items s -> id x <> Some n) -> items s' = items s))
  /\
  (forall (B : Type) (server : request Users.User -> fetch_result B)
      (f : Users.User),
      accepts server (delete_request Users.baseUrl 1) ->
      items
        (settle (Scenario.showing Scenario.listAB f)
           (createDeleteHandler server Users.baseUrl Scenario.listAB "user" 1))
      = [Scenario.user 3 "B" "b@example.com"]).
Proof.
  split.
  - intros F B server baseUrl entityName s n Hok s'. subst s'.
    rewrite (delete_handler_success _ _ _ _ _ Hok). cbn.
    split; [intros x Hx; apply list_elem_of_filter in Hx as [Hne _]; exact Hne|].
    split; [intros x Hne; rewrite list_elem_of_filter; tauto|].
    split; [apply sublist_filter|].
    split; [apply remove_length|].
    split; [apply remove_one|apply remove_none].
  - intros B server f Hok.
    rewrite (delete_handler_success _ _ _ _ _ Hok). reflexivity.
Qed.

Lemma delete_removes_matching_witness :
  accepts (Scenario.always 200 tt) (delete_request Users.baseUrl 1) /\
  items
    (settle (Scenario.showing Scenario.listAB Users.emptyUser)
       (createDeleteHandler (Scenario.always 200 tt) Users.baseUrl
          Scenario.listAB "user" 1))
  = [Scenario.user 3 "B" "b@example.com"].
Proof.
  assert (Hok : accepts (Scenario.always 200 tt)
                  (delete_request (F:=Users.BaseUser) Users.baseUrl 1)).
  { eexists. split; reflexivity. }
  split; [exact Hok|].
  exact (proj2 delete_removes_matching unit (Scenario.always 200 tt)
           Users.emptyUser Hok).
Defined.

(** C5 as stated fails where the deleted identifier occurs twice: the
    length then decreases by two. *)
Lemma delete_removes_every_match :
  let old := Scenario.listDup in
  let new :=
    items
      (settle (Scenario.showing old Users.emptyUser)
         (createDeleteHandler (Scenario.always 200 tt) Users.baseUrl old
            "user" 3)) in
  items
    (settle (Scenario.showing [] Users.emptyUser)
       (createFetchHandler (Scenario.always 200 old) Users.baseUrl "users"))
  = old /\
  accepts (Scenario.always 200 tt)
    (delete_request (F:=Users.BaseUser) Users.baseUrl 3) /\
  (exists x, x ∈ old /\ id x = Some 3) /\
  new = [] /\
  length old = 2%nat /\
  length old <> S (length new).
Proof.
  cbv zeta.
  split; [reflexivity|].
  split; [eexists; split; reflexivity|].
  split; [eexists; split; [left|reflexivity]|].
  split; [reflexivity|]. split; [reflexivity|].
  vm_compute. discriminate.
Qed.

(** ** Fetch *)

(** C6.  After a successful fetch the list is the parsed response body,
    element for element and in the same order, whatever the list held
    before; the loading flag is down and no error is recorded. *)
Theorem fetch_replaces_list
    (F : Type) (server : request (Entity F) -> fetch_result (list (Entity F)))
    (baseUrl entityName : string) (s : PageState F) (data : list (Entity F)) :
  replies_with server (list_request baseUrl) data ->
  settle s (createFetchHandler server baseUrl entityName)
  = mkPageState data false None (formData s).
Proof.
  intros Hok. rewrite (fetch_handler_success _ _ _ _ Hok). reflexivity.
Qed.

Lemma fetch_replaces_list_witness :
  replies_with (Scenario.always 200 Scenario.listAB)
    (list_request Users.baseUrl) Scenario.listAB /\
  settle (Scenario.showing Scenario.listDup Users.emptyUser)
    (createFetchHandler (Scenario.always 200 Scenario.listAB) Users.baseUrl
       "users")
  = mkPageState Scenario.listAB false None Users.emptyUser.
Proof.
  assert (Hok : replies_with (Scenario.always 200 Scenario.listAB)
                  (list_request Users.baseUrl) Scenario.listAB).
  { eexists. split; [reflexivity|]. split; reflexivity. }
  split; [exact Hok|].
  exact (fetch_replaces_list Users.BaseUser
           (Scenario.always 200 Scenario.listAB) Users.baseUrl "users"
           (Scenario.showing Scenario.listDup Users.emptyUser)
           Scenario.listAB Hok).
Defined.




(** ** Identifiers stay pairwise distinct *)

Section Distinct.

Context {F : Type}.
Implicit Types (l : list (Entity F)) (saved : Entity F) (k : option Z).

(** The identifiers after the [map] of update. *)
Lemma replace_ids l k saved :
  id <$> ((fun item : Entity F => if decide (id item = k) then saved else item) <$> l)
  = (fun i : option Z => if decide (i = k) then id saved else i) <$> (id <$> l).
Proof.
  induction l as [|y l IH]; [reflexivity|].
  cbn. rewrite IH. f_equal.
  destruct (decide (id y = k)); reflexivity.
Qed.

Lemma replace_NoDup l k saved :
  NoDup (id <$> l) ->
  id saved = k \/ id saved ∉ id <$> l ->
  NoDup (id <$> ((fun item : Entity F =>
                    if decide (id item = k) then saved else item) <$> l)).
Proof.
  intros Hnd Hsaved. rewrite replace_ids.
  apply NoDup_fmap_2_strong; [|exact Hnd].
  intros i j Hi Hj.
  destruct (decide (i = k)) as [Hik|Hik], (decide (j = k)) as [Hjk|Hjk];
    intros Heq.
  - congruence.
  - destruct Hsaved as [Hs|Hs]; [congruence|].
    exfalso. apply Hs. rewrite Heq. exact Hj.
  - destruct Hsaved as [Hs|Hs]; [congruence|].
    exfalso. apply Hs. rewrite <- Heq. exact Hi.
  - exact Heq.
Qed.

Lemma append_fresh_NoDup l (x : Entity F) :
  is_safe_integer (maxId l) = true ->
  NoDup (id <$> l) ->
  NoDup (id <$> l ++ [with_id x (number_add (maxId l) 1)]).
Proof.
  intros Hsafe Hnd. rewrite fmap_app. apply NoDup_app.
  split; [exact Hnd|]. split; [|apply NoDup_singleton].
  intros i Hi Hin. cbn in Hin.
  apply list_elem_of_singleton in Hin.
  apply list_elem_of_fmap in Hi as (y & Hy & Hyin).
  apply (maxId_fresh l y Hsafe Hyin). congruence.
Qed.

End Distinct.

(** C2, amended.  From a list whose identifiers are pairwise distinct, a
    successful delete produces a list whose identifiers are pairwise
    distinct; a successful create does so when the maximum it computes is a
    safe integer (so that adding 1 is exact); a successful update does so
    when the server's representation carries the submitted identifier, or an
    identifier that no element of the list carries, or when no element
    matches; after a successful fetch the identifiers are pairwise distinct
    exactly when those of the response body are. *)
Theorem unique_ids_preserved (F : Type) (s : PageState F) :
  NoDup (id <$> items s) ->
  (forall (server : request (Entity F) -> fetch_result (Entity F))
      (baseUrl entityName : string) (clearFormData itemData newItem : Entity F),
      replies_with server (create_request baseUrl itemData) newItem ->
      is_safe_integer (maxId (items s)) = true ->
      NoDup (id <$> items
               (settle s (createCreateHandler server baseUrl (items s)
                            clearFormData entityName itemData)))) /\
  (forall (server : request (Entity F) -> fetch_result (Entity F))
      (baseUrl entityName : string) (clearFormData itemData savedItem : Entity F),
      truthy_number (id itemData) = true ->
      replies_with server (update_request baseUrl itemData) savedItem ->
      id savedItem = id itemData \/
      id savedItem ∉ id <$> items s \/
      (forall x, x ∈ items s -> id x <> id itemData) ->
      NoDup (id <$> items
               (settle s (createUpdateHandler server baseUrl (items s)
                            clearFormData entityName itemData)))) /\
  (forall (B : Type) (server : request (Entity F) -> fetch_result B)
      (baseUrl entityName : string) (n : Z),
      accepts server (delete_request baseUrl n) ->
      NoDup (id <$> items
               (settle s (createDeleteHandler server baseUrl (items s)
                            entityName n)))) /\
  (forall (server : request (Entity F) -> fetch_result (list (Entity F)))
      (baseUrl entityName : string) (data : list (Entity F)),
      replies_with server (list_request baseUrl) data ->
      (NoDup (id <$> items (settle s (createFetchHandler server baseUrl entityName)))
       <-> NoDup (id <$> data))).
Proof.
  intros Hnd. split; [|split; [|split]].
  - intros server baseUrl entityName clearFormData itemData newItem Hok Hsafe.
    rewrite (create_handler_success _ _ _ _ _ _ _ Hok). cbn.
    apply append_fresh_NoDup; [exact Hsafe|exact Hnd].
  - intros server baseUrl entityName clearFormData itemData savedItem
      Hid Hok Hsaved.
    rewrite (update_handler_success _ _ _ _ _ _ _ Hid Hok). cbn.
    destruct Hsaved as [Hs|[Hs|Hs]].
    + apply replace_NoDup; [exact Hnd|left; exact Hs].
    + apply replace_NoDup; [exact Hnd|right; exact Hs].
    + rewrite replace_none by exact Hs. exact Hnd.
  - intros B server baseUrl entityName n Hok.
    rewrite (delete_handler_success _ _ _ _ _ Hok). cbn.
    apply remove_NoDup, Hnd.
  - intros server baseUrl entityName data Hok.
    rewrite (fetch_handler_success _ _ _ _ Hok). reflexivity.
Qed.

Lemma listAB_ids_distinct : NoDup (id <$> Scenario.listAB).
Proof.
  apply NoDup_cons. split; [|apply NoDup_singleton].
  intros Hin. apply list_elem_of_singleton in Hin. discriminate Hin.
Defined.

Lemma listDup_ids_repeat : ~ NoDup (id <$> Scenario.listDup).
Proof.
  intros Hnd. apply NoDup_cons in Hnd as [Hin _]. apply Hin. left.
Qed.

Lemma unique_ids_preserved_witness :
  let itemData := Scenario.user 3 "B2" "b@example.com" in
  let s := Scenario.showing Scenario.listAB itemData in
  NoDup (id <$> items s) /\
  truthy_number (id itemData) = true /\
  replies_with (Scenario.echo Users.emptyUser)
    (update_request Users.baseUrl itemData) itemData /\
  NoDup (id <$> items
           (settle s (createUpdateHandler (Scenario.echo Users.emptyUser)
                        Users.baseUrl (items s) Users.emptyUser "user"
                        itemData))).
Proof.
  cbv zeta.
  assert (Hok : replies_with (Scenario.echo Users.emptyUser)
                  (update_request Users.baseUrl (Scenario.user 3 "B2" "b@example.com"))
                  (Scenario.user 3 "B2" "b@example.com")).
  { eexists. split; [reflexivity|]. split; reflexivity. }
  split; [exact listAB_ids_distinct|]. split; [reflexivity|].
  split; [exact Hok|].
  exact (proj1 (proj2 (unique_ids_preserved Users.BaseUser
                         (Scenario.showing Scenario.listAB
                            (Scenario.user 3 "B2" "b@example.com"))
                         listAB_ids_distinct))
           (Scenario.echo Users.emptyUser) Users.baseUrl "user" Users.emptyUser
           (Scenario.user 3 "B2" "b@example.com")
           (Scenario.user 3 "B2" "b@example.com")
           eq_refl Hok (or_introl eq_refl)).
Defined.

(** C2 as stated fails: the list after an update or a fetch carries whatever
    identifiers the server sent.  From [[{id:1},{id:3}]], an update of the
    element 3 answered with a representation that carries the identifier 1,
    and a fetch answered with a body in which an identifier occurs twice,
    both succeed and both leave a repeated identifier.  And from the list
    whose one identifier is 2^53, a successful create appends the identifier
    2^53 again, since 2^53 + 1 rounds back to it. *)
Lemma unique_ids_broken_by_response :
  let itemData := Scenario.user 3 "B2" "b@example.com" in
  let answer := Scenario.user 1 "B2" "b@example.com" in
  let s := Scenario.showing Scenario.listAB itemData in
  NoDup (id <$> items s) /\
  (truthy_number (id itemData) = true /\
   replies_with (Scenario.always 200 answer)
     (update_request Users.baseUrl itemData) answer /\
   ~ NoDup (id <$> items
              (settle s (createUpdateHandler (Scenario.always 200 answer)
                           Users.baseUrl (items s) Users.emptyUser "user"
                           itemData)))) /\
  (replies_with (Scenario.always 200 Scenario.listDup)
     (list_request Users.baseUrl) Scenario.listDup /\
   ~ NoDup (id <$> items
              (settle s (createFetchHandler (Scenario.always 200 Scenario.listDup)
                           Users.baseUrl "users")))) /\
  (let l := [Scenario.user (2 ^ 53) "A" "a@example.com"] in
   let created := Scenario.draft "C" "c@example.com" in
   NoDup (id <$> l) /\
   replies_with (Scenario.echo Users.emptyUser)
     (create_request Users.baseUrl created) created /\
   ~ NoDup (id <$> items
              (settle (Scenario.showing l created)
                 (createCreateHandler (Scenario.echo Users.emptyUser)
                    Users.baseUrl l Users.emptyUser "user" created)))).
Proof.
  cbv zeta. split; [exact listAB_ids_distinct|]. split; [|split].
  - split; [reflexivity|].
    split; [eexists; split; [reflexivity|split; reflexivity]|].
    intros Hnd. apply NoDup_cons in Hnd as [Hin _]. apply Hin. left.
  - split; [eexists; split; [reflexivity|split; reflexivity]|].
    exact listDup_ids_repeat.
  - split; [apply NoDup_singleton|].
    split; [eexists; split; [reflexivity|split; reflexivity]|].
    intros Hnd. apply NoDup_cons in Hnd as [Hin _]. apply Hin. left.
Qed.

(** ** Submitting the form *)

(** [trim] leaves nothing exactly of the blank texts. *)
Lemma trimStart_blank (s : text) : blank s = true -> trimStart s = [].
Proof.
  induction s as [|c s IH]; cbn; [reflexivity|].
  destruct (is_white_space c); cbn; [exact IH|discriminate].
Qed.

Lemma trimStart_not_blank (s : text) :
  blank s = false ->
  exists c t, trimStart s = c :: t /\ is_white_space c = false.
Proof.
  induction s as [|c s IH]; cbn; [discriminate|].
  destruct (is_white_space c) eqn:Hc; cbn; [exact IH|].
  intros _. exists c, s. split; [reflexivity|exact Hc].
Qed.

Lemma trimEnd_keeps_head (c : N) (t : text) :
  is_white_space c = false -> truthy_text (trimEnd (c :: t)) = true.
Proof.
  intros Hc. cbn. destruct (trimEnd t); [rewrite Hc|]; reflexivity.
Qed.

Lemma trim_blank (s : text) : blank s = true -> truthy_text (trim s) = false.
Proof.
  intros Hs. unfold trim. rewrite (trimStart_blank s Hs). reflexivity.
Qed.

Lemma trim_not_blank (s : text) : blank s = false -> truthy_text (trim s) = true.
Proof.
  intros Hs. unfold trim.
  destruct (trimStart_not_blank s Hs) as (c & t & -> & Hc).
  apply trimEnd_keeps_head, Hc.
Qed.

(** C8.  When a required text field of the form draft is empty or consists
    of white space only (name or email on the users page, title or body on
    the posts page), submitting performs a single effect, setting the error
    to "Please fill in all fields": neither the create nor the update
    operation runs, no request is issued, and the list and the form draft
    are left as they were. *)
Theorem blank_field_rejected :
  (forall (handleCreate handleUpdate : Users.User -> Eff Users.BaseUser unit)
      (s : PageState Users.BaseUser),
      blank (Users.name (fields (formData s))) = true \/
      blank (Users.email (fields (formData s))) = true ->
      let h := Users.handleSubmit handleCreate handleUpdate s in
      h = ([SetError (Some "Please fill in all fields")], Normal tt) /\
      requests h = [] /\
      settle s h =
        mkPageState (items s) (loading s) (Some "Please fill in all fields")
          (formData s))
  /\
  (forall (itemServer : request Posts.Post -> fetch_result Posts.Post)
      (s : PageState Posts.BasePost),
      blank (Posts.title (fields (formData s))) = true \/
      blank (Posts.body (fields (formData s))) = true ->
      let h := Posts.handleSubmit itemServer s in
      h = ([SetError (Some "Please fill in all fields")], Normal tt) /\
      requests h = [] /\
      settle s h =
        mkPageState (items s) (loading s) (Some "Please fill in all fields")
          (formData s)).
Proof.
  split.
  - intros handleCreate handleUpdate s Hblank h.
    assert (Hh : h = ([SetError (Some "Please fill in all fields")], Normal tt)).
    { subst h. unfold Users.handleSubmit.
      destruct Hblank as [Hb|Hb]; rewrite (trim_blank _ Hb); cbn [negb orb].
      - reflexivity.
      - rewrite orb_true_r. reflexivity. }
    rewrite Hh. repeat split.
  - intros itemServer s Hblank h.
    assert (Hh : h = ([SetError (Some "Please fill in all fields")], Normal tt)).
    { subst h. unfold Posts.handleSubmit.
      destruct Hblank as [Hb|Hb]; rewrite (trim_blank _ Hb); cbn [negb orb].
      - reflexivity.
      - rewrite orb_true_r. reflexivity. }
    rewrite Hh. repeat split.
Qed.

Lemma blank_field_rejected_witness :
  let s := Scenario.showing Scenario.listAB (Scenario.draft "C" "  ") in
  let h := Users.handleSubmit
             (createCreateHandler (Scenario.echo Users.emptyUser) Users.baseUrl
                (items s) Users.emptyUser "user")
             (createUpdateHandler (Scenario.echo Users.emptyUser) Users.baseUrl
                (items s) Users.emptyUser "user")
             s in
  (blank (Users.name (fields (formData s))) = true \/
   blank (Users.email (fields (formData s))) = true) /\
  requests h = [] /\
  settle s h =
    mkPageState Scenario.listAB false (Some "Please fill in all fields")
      (Scenario.draft "C" "  ").
Proof.
  cbv zeta. split; [right; reflexivity|].
  exact (proj2 (proj1 blank_field_rejected
                  (createCreateHandler (Scenario.echo Users.emptyUser)
                     Users.baseUrl Scenario.listAB Users.emptyUser "user")
                  (createUpdateHandler (Scenario.echo Users.emptyUser)
                     Users.baseUrl Scenario.listAB Users.emptyUser "user")
                  (Scenario.showing Scenario.listAB (Scenario.draft "C" "  "))
                  (or_intror eq_refl))).
Defined.

(** The create handler issues its one request whatever the answer is. *)
Lemma create_handler_requests
    (F : Type) (server : request (Entity F) -> fetch_result (Entity F))
    (baseUrl entityName : string) (l : list (Entity F))
    (clearFormData itemData : Entity F) :
  requests (createCreateHandler server baseUrl l clearFormData entityName itemData)
  = [create_request baseUrl itemData].
Proof.
  unfold createCreateHandler. run_handler.
  destruct (server (create_request baseUrl itemData)) as [err|r]; cbn;
    [reflexivity|].
  destruct (ok r); cbn; [|reflexivity].
  destruct (json r); reflexivity.
Qed.

(** So does the update handler, once the identifier is truthy. *)
Lemma update_handler_requests
    (F : Type) (server : request (Entity F) -> fetch_result (Entity F))
    (baseUrl entityName : string) (l : list (Entity F))
    (clearFormData itemData : Entity F) :
  truthy_number (id itemData) = true ->
  requests (createUpdateHandler server baseUrl l clearFormData entityName itemData)
  = [update_request baseUrl itemData].
Proof.
  intros Hid. unfold createUpdateHandler. run_handler. rewrite Hid. cbn.
  destruct (server (update_request baseUrl itemData)) as [err|r]; cbn;
    [reflexivity|].
  destruct (ok r); cbn; [|reflexivity].
  destruct (json r); reflexivity.
Qed.






(** * Further properties of the handlers *)

(** ** Failure paths *)

(** Runs a handler along the failure described by [H]. *)
Ltac fail_path H :=
  match type of H with
  | rejects_with _ _ _ => unfold rejects_with in H; rewrite H
  | answers_status _ _ _ =>
      let r := fresh "r" in let Hr := fresh in
      let Hok := fresh in let Hc := fresh in
      destruct H as (r & Hr & Hok & Hc); rewrite Hr; cbn; rewrite Hok, Hc
  | garbles _ _ _ =>
      let r := fresh "r" in let Hr := fresh in
      let Hok := fresh in let Hj := fresh in
      destruct H as (r & Hr & Hok & Hj); rewrite Hr; cbn; rewrite Hok; cbn;
      try rewrite Hj
  end;
  cbn.

(** X1.  A create that fails, because the request is rejected, answered with a
    non-success status, or answered with a body that does not parse, changes
    nothing on the page but the error: the list, the form draft and the
    loading flag stay, whatever list the handler closed over. *)
Theorem create_failure_keeps_state
    (F : Type) (server : request (Entity F) -> fetch_result (Entity F))
    (baseUrl entityName : string) (s : PageState F) (l : list (Entity F))
    (clearFormData itemData : Entity F) :
  let h := createCreateHandler server baseUrl l clearFormData entityName itemData in
  let failed msg := mkPageState (items s) (loading s) (Some msg) (formData s) in
  (forall err, rejects_with server (create_request baseUrl itemData) err ->
     settle s h = failed (message_or ("Failed to create " +:+ entityName) err)) /\
  (forall code, answers_status server (create_request baseUrl itemData) code ->
     settle s h = failed ("HTTP error! status: " +:+ to_string code)) /\
  (forall err, garbles server (create_request baseUrl itemData) err ->
     settle s h = failed (message_or ("Failed to create " +:+ entityName) err)).
Proof.
  cbv zeta. unfold createCreateHandler.
  split; [|split]; intros x Hx; run_handler; fail_path Hx; reflexivity.
Qed.

Lemma create_failure_keeps_state_witness :
  let s := Scenario.showing Scenario.listAB (Scenario.draft "C" "c@example.com") in
  answers_status (Scenario.always 500 Users.emptyUser)
    (create_request Users.baseUrl (formData s)) 500 /\
  settle s
    (createCreateHandler (Scenario.always 500 Users.emptyUser) Users.baseUrl
       (items s) Users.emptyUser "user" (formData s))
  = mkPageState Scenario.listAB false (Some "HTTP error! status: 500")
      (Scenario.draft "C" "c@example.com").
Proof.
  cbv zeta.
  assert (H : answers_status (Scenario.always 500 Users.emptyUser)
                (create_request Users.baseUrl (Scenario.draft "C" "c@example.com"))
                500).
  { eexists. split; [reflexivity|]. split; reflexivity. }
  split; [exact H|].
  exact (proj1 (proj2 (create_failure_keeps_state Users.BaseUser
                         (Scenario.always 500 Users.emptyUser) Users.baseUrl
                         "user"
                         (Scenario.showing Scenario.listAB
                            (Scenario.draft "C" "c@example.com"))
                         Scenario.listAB Users.emptyUser
                         (Scenario.draft "C" "c@example.com")))
           500 H).
Defined.

(** X2.  An update that passes the identifier guard and then fails at the
    remote side changes nothing on the page but the error. *)
Theorem update_failure_keeps_state
    (F : Type) (server : request (Entity F) -> fetch_result (Entity F))
    (baseUrl entityName : string) (s : PageState F) (l : list (Entity F))
    (clearFormData itemData : Entity F) :
  truthy_number (id itemData) = true ->
  let h := createUpdateHandler server baseUrl l clearFormData entityName itemData in
  let failed msg := mkPageState (items s) (loading s) (Some msg) (formData s) in
  (forall err, rejects_with server (update_request baseUrl itemData) err ->
     settle s h = failed (message_or ("Failed to update " +:+ entityName) err)) /\
  (forall code, answers_status server (update_request baseUrl itemData) code ->
     settle s h = failed ("HTTP error! status: " +:+ to_string code)) /\
  (forall err, garbles server (update_request baseUrl itemData) err ->
     settle s h = failed (message_or ("Failed to update " +:+ entityName) err)).
Proof.
  intros Hid. cbv zeta. unfold createUpdateHandler.
  split; [|split]; intros x Hx; run_handler; rewrite Hid; cbn;
    fail_path Hx; reflexivity.
Qed.

Lemma update_failure_keeps_state_witness :
  let s := Scenario.showing Scenario.listAB (Scenario.user 3 "B2" "b@example.com") in
  truthy_number (id (formData s)) = true /\
  rejects_with (Scenario.unreachable (B:=Users.User) "Failed to fetch")
    (update_request Users.baseUrl (formData s)) (Error "Failed to fetch") /\
  settle s
    (createUpdateHandler (Scenario.unreachable "Failed to fetch") Users.baseUrl
       (items s) Users.emptyUser "user" (formData s))
  = mkPageState Scenario.listAB false (Some "Failed to fetch")
      (Scenario.user 3 "B2" "b@example.com").
Proof.
  cbv zeta. split; [reflexivity|]. split; [reflexivity|].
  exact (proj1 (update_failure_keeps_state Users.BaseUser
                  (Scenario.unreachable "Failed to fetch") Users.baseUrl "user"
                  (Scenario.showing Scenario.listAB
                     (Scenario.user 3 "B2" "b@example.com"))
                  Scenario.listAB Users.emptyUser
                  (Scenario.user 3 "B2" "b@example.com") eq_refl)
           (Error "Failed to fetch") eq_refl).
Defined.

(** X3.  A delete that is rejected or answered with a non-success status
    changes nothing on the page but the error. The body of the answer is never
    read: an [ok] answer whose body does not parse is a success, and the
    matching elements are removed. *)
Theorem delete_failure_keeps_state
    (F B : Type) (server : request (Entity F) -> fetch_result B)
    (baseUrl entityName : string) (s : PageState F) (l : list (Entity F))
    (n : Z) :
  let h := createDeleteHandler server baseUrl l entityName n in
  let failed msg := mkPageState (items s) (loading s) (Some msg) (formData s) in
  (forall err, rejects_with server (delete_request baseUrl n) err ->
     settle s h = failed (message_or ("Failed to delete " +:+ entityName) err)) /\
  (forall code, answers_status server (delete_request baseUrl n) code ->
     settle s h = failed ("HTTP error! status: " +:+ to_string code)) /\
  (forall err, garbles server (delete_request baseUrl n) err ->
     settle s h =
       mkPageState (filter (fun item : Entity F => id item <> Some n) l)
         (loading s) None (formData s)).
Proof.
  cbv zeta. unfold createDeleteHandler.
  split; [|split]; intros x Hx; run_handler; fail_path Hx; reflexivity.
Qed.

Lemma delete_failure_keeps_state_witness :
  let s := Scenario.showing Scenario.listAB Users.emptyUser in
  answers_status (Scenario.always 404 tt)
    (delete_request (F:=Users.BaseUser) Users.baseUrl 3) 404 /\
  settle s
    (createDeleteHandler (Scenario.always 404 tt) Users.baseUrl (items s)
       "user" 3)
  = mkPageState Scenario.listAB false (Some "HTTP error! status: 404")
      Users.emptyUser.
Proof.
  cbv zeta.
  assert (H : answers_status (Scenario.always 404 tt)
                (delete_request (F:=Users.BaseUser) Users.baseUrl 3) 404).
  { eexists. split; [reflexivity|]. split; reflexivity. }
  split; [exact H|].
  exact (proj1 (proj2 (delete_failure_keeps_state Users.BaseUser unit
                         (Scenario.always 404 tt) Users.baseUrl "user"
                         (Scenario.showing Scenario.listAB Users.emptyUser)
                         Scenario.listAB 3))
           404 H).
Defined.

(** X4.  A fetch whose answer is [ok] but whose body does not parse leaves the
    list and the form draft as they were, records the parser's message (or
    "Failed to fetch <entity>"), and lowers the loading flag. *)
Theorem fetch_unparsable_keeps_list
    (F : Type) (server : request (Entity F) -> fetch_result (list (Entity F)))
    (baseUrl entityName : string) (s : PageState F) (err : thrown) :
  garbles server (list_request baseUrl) err ->
  settle s (createFetchHandler server baseUrl entityName)
  = mkPageState (items s) false
      (Some (message_or ("Failed to fetch " +:+ entityName) err)) (formData s).
Proof.
  intros Hx. unfold createFetchHandler. run_handler. fail_path Hx. reflexivity.
Qed.

Lemma fetch_unparsable_keeps_list_witness :
  let server : request Users.User -> fetch_result (list Users.User) :=
    Scenario.unparsable 200 "Unexpected token" in
  garbles server (list_request Users.baseUrl) (Error "Unexpected token") /\
  settle (Scenario.showing Scenario.listAB Users.emptyUser)
    (createFetchHandler server Users.baseUrl "users")
  = mkPageState Scenario.listAB false (Some "Unexpected token") Users.emptyUser.
Proof.
  cbv zeta.
  assert (H : garbles
                (Scenario.unparsable (T:=Users.User) (B:=list Users.User) 200
                   "Unexpected token")
                (list_request Users.baseUrl) (Error "Unexpected token")).
  { eexists. split; [reflexivity|]. split; reflexivity. }
  split; [exact H|].
  exact (fetch_unparsable_keeps_list Users.BaseUser
           (Scenario.unparsable 200 "Unexpected token") Users.baseUrl "users"
           (Scenario.showing Scenario.listAB Users.emptyUser)
           (Error "Unexpected token") H).
Defined.

(** ** What no outcome can make a handler do *)

Ltac all_paths server :=
  run_handler;
  match goal with
  | |- context [server ?req] =>
      destruct (server req) as [?err|?r] eqn:?Hserver; cbn
  end;
  [|match goal with
    | r : response _ |- _ =>
        destruct (ok r) eqn:?Hok; cbn;
        [try (destruct (json r) eqn:?Hjson; cbn)|]
    end].

(** X5.  Once its request has settled, none of the four handlers lets an
    exception escape: whether the request was rejected or resolved, with
    whatever status, and whether the body parses or not, the handler catches
    what is thrown (including the missing identifier of an update) and
    completes normally. *)
Theorem handlers_complete_normally :
  (forall (F : Type) (server : request (Entity F) -> fetch_result (list (Entity F)))
      (baseUrl entityName : string),
      (createFetchHandler server baseUrl entityName).2 = Normal tt) /\
  (forall (F : Type) (server : request (Entity F) -> fetch_result (Entity F))
      (baseUrl entityName : string) (l : list (Entity F))
      (clearFormData itemData : Entity F),
      (createCreateHandler server baseUrl l clearFormData entityName itemData).2
      = Normal tt /\
      (createUpdateHandler server baseUrl l clearFormData entityName itemData).2
      = Normal tt) /\
  (forall (F B : Type) (server : request (Entity F) -> fetch_result B)
      (baseUrl entityName : string) (l : list (Entity F)) (n : Z),
      (createDeleteHandler server baseUrl l entityName n).2 = Normal tt).
Proof.
  assert (Hcreate : forall (F : Type)
            (server : request (Entity F) -> fetch_result (Entity F))
            (baseUrl entityName : string) (l : list (Entity F))
            (clearFormData itemData : Entity F),
            (createCreateHandler server baseUrl l clearFormData entityName
               itemData).2 = Normal tt).
  { intros. unfold createCreateHandler.
    all_paths server; reflexivity. }
  assert (Hupdate : forall (F : Type)
            (server : request (Entity F) -> fetch_result (Entity F))
            (baseUrl entityName : string) (l : list (Entity F))
            (clearFormData itemData : Entity F),
            (createUpdateHandler server baseUrl l clearFormData entityName
               itemData).2 = Normal tt).
  { intros. unfold createUpdateHandler. run_handler.
    destruct (truthy_number (id itemData)); cbn; [|reflexivity].
    all_paths server; reflexivity. }
  split; [|split].
  - intros. unfold createFetchHandler.
    all_paths server; reflexivity.
  - intros. split; [apply Hcreate|apply Hupdate].
  - intros. unfold createDeleteHandler.
    all_paths server; reflexivity.
Qed.

(** X6.  Every run of the fetch, create and delete handlers issues exactly one
    request, the one for its operation, whatever the answer; an update issues
    its PUT request exactly when the identifier is truthy and none otherwise;
    a submit on the posts page issues at most one request. *)
Theorem handlers_issue_one_request :
  (forall (F : Type) (server : request (Entity F) -> fetch_result (list (Entity F)))
      (baseUrl entityName : string),
      requests (createFetchHandler server baseUrl entityName)
      = [list_request baseUrl]) /\
  (forall (F : Type) (server : request (Entity F) -> fetch_result (Entity F))
      (baseUrl entityName : string) (l : list (Entity F))
      (clearFormData itemData : Entity F),
      requests (createCreateHandler server baseUrl l clearFormData entityName
                  itemData)
      = [create_request baseUrl itemData] /\
      requests (createUpdateHandler server baseUrl l clearFormData entityName
                  itemData)
      = if truthy_number (id itemData)
        then [update_request baseUrl itemData] else []) /\
  (forall (F B : Type) (server : request (Entity F) -> fetch_result B)
      (baseUrl entityName : string) (l : list (Entity F)) (n : Z),
      requests (createDeleteHandler server baseUrl l entityName n)
      = [delete_request baseUrl n]) /\
  (forall (itemServer : request Posts.Post -> fetch_result Posts.Post)
      (s : PageState Posts.BasePost),
      (length (requests (Posts.handleSubmit itemServer s)) <= 1)%nat).
Proof.
  split; [|split; [|split]].
  - intros. unfold createFetchHandler.
    all_paths server; reflexivity.
  - intros. split; [apply create_handler_requests|].
    destruct (truthy_number (id itemData)) eqn:Hid.
    + apply update_handler_requests, Hid.
    + rewrite (update_handler_no_id _ _ _ _ _ _ Hid). reflexivity.
  - intros. unfold createDeleteHandler.
    all_paths server; reflexivity.
  - intros. unfold Posts.handleSubmit, Posts.handleCreatePost,
      Posts.handleUpdatePost.
    destruct (_ || _); [cbn; lia|].
    destruct (truthy_number _) eqn:Hid.
    + rewrite (update_handler_requests _ _ _ _ _ _ _ Hid). cbn. lia.
    + rewrite create_handler_requests. cbn. lia.
Qed.

Ltac no_success H :=
  let r := fresh in let Hr := fresh in
  first
    [ destruct H as (? & r & Hr & ? & ?) | destruct H as (r & Hr & ?)
    | destruct H as (? & ? & r & Hr & ? & ?) ];
  congruence.

(** X7.  An error message never survives an attempt and never hides a failure:
    after a handler has run, the page's error is null exactly when the attempt
    succeeded (for an update: the identifier is truthy and the request
    succeeded). *)
Theorem error_null_iff_success :
  (forall (F : Type) (server : request (Entity F) -> fetch_result (list (Entity F)))
      (baseUrl entityName : string) (s : PageState F),
      error (settle s (createFetchHandler server baseUrl entityName)) = None
      <-> exists data, replies_with server (list_request baseUrl) data) /\
  (forall (F : Type) (server : request (Entity F) -> fetch_result (Entity F))
      (baseUrl entityName : string) (s : PageState F) (l : list (Entity F))
      (clearFormData itemData : Entity F),
      (error (settle s (createCreateHandler server baseUrl l clearFormData
                          entityName itemData)) = None
       <-> exists newItem,
             replies_with server (create_request baseUrl itemData) newItem) /\
      (error (settle s (createUpdateHandler server baseUrl l clearFormData
                          entityName itemData)) = None
       <-> truthy_number (id itemData) = true /\
           exists savedItem,
             replies_with server (update_request baseUrl itemData) savedItem)) /\
  (forall (F B : Type) (server : request (Entity F) -> fetch_result B)
      (baseUrl entityName : string) (s : PageState F) (l : list (Entity F))
      (n : Z),
      error (settle s (createDeleteHandler server baseUrl l entityName n)) = None
      <-> accepts server (delete_request baseUrl n)).
Proof.
  split; [|split].
  - intros. unfold createFetchHandler.
    all_paths server;
      (split; [intros H; try discriminate H|intros H; try no_success H]).
    eexists. exists r. repeat split; eassumption.
  - intros. split.
    + unfold createCreateHandler.
      all_paths server;
        (split; [intros H; try discriminate H|intros H; try no_success H]).
      eexists. exists r. repeat split; eassumption.
    + unfold createUpdateHandler. run_handler.
      destruct (truthy_number (id itemData)) eqn:Hid; cbn.
      * all_paths server;
          (split; [intros H; try discriminate H
                  |intros [_ H]; try no_success H]).
        split; [reflexivity|]. eexists. exists r. repeat split; eassumption.
      * split; [intros H; discriminate H|intros [H _]; discriminate H].
  - intros. unfold createDeleteHandler.
    all_paths server;
      (split; [intros H; try discriminate H|intros H; try no_success H]).
    all: exists r; split; assumption.
Qed.

(** X8.  Only the fetch handler touches the loading flag, and neither it nor
    the delete handler touches the form draft, whatever the outcome. *)
Theorem handlers_frame :
  (forall (F : Type) (server : request (Entity F) -> fetch_result (list (Entity F)))
      (baseUrl entityName : string) (s : PageState F),
      formData (settle s (createFetchHandler server baseUrl entityName))
      = formData s) /\
  (forall (F : Type) (server : request (Entity F) -> fetch_result (Entity F))
      (baseUrl entityName : string) (s : PageState F) (l : list (Entity F))
      (clearFormData itemData : Entity F),
      loading (settle s (createCreateHandler server baseUrl l clearFormData
                           entityName itemData)) = loading s /\
      loading (settle s (createUpdateHandler server baseUrl l clearFormData
                           entityName itemData)) = loading s) /\
  (forall (F B : Type) (server : request (Entity F) -> fetch_result B)
      (baseUrl entityName : string) (s : PageState F) (l : list (Entity F))
      (n : Z),
      loading (settle s (createDeleteHandler server baseUrl l entityName n))
      = loading s /\
      formData (settle s (createDeleteHandler server baseUrl l entityName n))
      = formData s).
Proof.
  split; [|split].
  - intros. unfold createFetchHandler. all_paths server; reflexivity.
  - intros. split.
    + unfold createCreateHandler. all_paths server; reflexivity.
    + unfold createUpdateHandler. run_handler.
      destruct (truthy_number (id itemData)); cbn; [|reflexivity].
      all_paths server; reflexivity.
  - intros. unfold createDeleteHandler.
    split; all_paths server; reflexivity.
Qed.

(** ** How the operations compose *)

Section Compose.

Context {F : Type}.
Implicit Types (l : list (Entity F)) (x saved : Entity F) (k : option Z).

(** Appending the synthesized identifier raises the maximum by one, as long
    as the sum is exact. *)
Lemma maxId_snoc l x :
  is_safe_integer (maxId l) = true ->
  maxId (l ++ [with_id x (number_add (maxId l) 1)]) = maxId l + 1.
Proof.
  intros Hsafe. rewrite (number_add_safe _ Hsafe). clear Hsafe.
  unfold maxId. rewrite fmap_app.
  destruct ((fun item : Entity F => or_zero (id item)) <$> l) as [|y ys]; cbn;
    [reflexivity|].
  unfold Math_max. rewrite foldl_app. cbn.
  destruct (Z.eqb_spec (foldl Z.max y ys + 1) 0); cbn; lia.
Qed.

(** Removing the synthesized identifier removes the appended element only. *)
Lemma remove_appended l x :
  is_safe_integer (maxId l) = true ->
  filter (fun item : Entity F => id item <> Some (number_add (maxId l) 1))
    (l ++ [with_id x (number_add (maxId l) 1)]) = l.
Proof.
  intros Hsafe.
  rewrite filter_app, remove_none
    by (intros y Hy; apply maxId_fresh; [exact Hsafe|exact Hy]).
  rewrite filter_cons, filter_nil.
  destruct (decide (id (with_id x (number_add (maxId l) 1))
                    <> Some (number_add (maxId l) 1)))
    as [Hne|_].
  - exfalso. apply Hne. reflexivity.
  - apply app_nil_r.
Qed.

(** Replacing twice by a representation that carries the matched identifier
    is replacing once. *)
Lemma replace_twice l k saved :
  id saved = k ->
  (fun item : Entity F => if decide (id item = k) then saved else item)
    <$> ((fun item : Entity F => if decide (id item = k) then saved else item)
           <$> l)
  = (fun item : Entity F => if decide (id item = k) then saved else item) <$> l.
Proof.
  intros Hk. induction l as [|y l IH]; [reflexivity|].
  cbn. rewrite IH. f_equal.
  destruct (decide (id y = k)) as [Hy|Hy].
  - destruct (decide (id saved = k)); [reflexivity|contradiction].
  - destruct (decide (id y = k)); [contradiction|reflexivity].
Qed.

(** The filters of two deletes can be taken in either order. *)
Lemma remove_comm l (n m : Z) :
  filter (fun item : Entity F => id item <> Some m)
    (filter (fun item : Entity F => id item <> Some n) l)
  = filter (fun item : Entity F => id item <> Some n)
      (filter (fun item : Entity F => id item <> Some m) l).
Proof.
  induction l as [|y l IH]; [reflexivity|].
  rewrite !filter_cons.
  destruct (decide (id y <> Some n)) as [Hn|Hn],
           (decide (id y <> Some m)) as [Hm|Hm];
    rewrite ?filter_cons;
    repeat match goal with
           | |- context [decide (id y <> Some ?z)] =>
               destruct (decide (id y <> Some z)); try contradiction
           end;
    congruence.
Qed.

Lemma remove_twice l (n : Z) :
  filter (fun item : Entity F => id item <> Some n)
    (filter (fun item : Entity F => id item <> Some n) l)
  = filter (fun item : Entity F => id item <> Some n) l.
Proof.
  apply remove_none. intros y Hy.
  apply list_elem_of_filter in Hy as [Hne _]. exact Hne.
Qed.

End Compose.

(** X9.  Two successful creates, the second by the handler of the render that
    follows the first, append two elements numbered consecutively, one and
    two more than the maximum of the original list, as long as that maximum
    and its successor are safe integers. *)
Theorem creates_number_consecutively
    (F : Type) (server : request (Entity F) -> fetch_result (Entity F))
    (baseUrl entityName : string) (s : PageState F)
    (clearFormData a b newA newB : Entity F) :
  replies_with server (create_request baseUrl a) newA ->
  replies_with server (create_request baseUrl b) newB ->
  is_safe_integer (maxId (items s)) = true ->
  is_safe_integer (maxId (items s) + 1) = true ->
  let s1 :=
    settle s (createCreateHandler server baseUrl (items s) clearFormData
                entityName a) in
  let s2 :=
    settle s1 (createCreateHandler server baseUrl (items s1) clearFormData
                 entityName b) in
  items s2 =
    items s ++ [with_id newA (maxId (items s) + 1);
                with_id newB (maxId (items s) + 2)].
Proof.
  intros Ha Hb Hsafe Hsafe' s1 s2. subst s2 s1.
  rewrite (create_handler_success _ _ _ _ _ _ _ Ha). cbn.
  rewrite (create_handler_success _ _ _ _ _ _ _ Hb). cbn.
  rewrite (maxId_snoc _ _ Hsafe), (number_add_safe _ Hsafe),
    (number_add_safe _ Hsafe'), <- app_assoc. cbn.
  replace (maxId (items s) + 1 + 1) with (maxId (items s) + 2) by lia.
  reflexivity.
Qed.

Lemma creates_number_consecutively_witness :
  let a := Scenario.draft "C" "c@example.com" in
  let b := Scenario.draft "D" "d@example.com" in
  let s := Scenario.showing Scenario.listAB a in
  let s1 :=
    settle s (createCreateHandler (Scenario.echo Users.emptyUser) Users.baseUrl
                (items s) Users.emptyUser "user" a) in
  let s2 :=
    settle s1 (createCreateHandler (Scenario.echo Users.emptyUser) Users.baseUrl
                 (items s1) Users.emptyUser "user" b) in
  replies_with (Scenario.echo Users.emptyUser) (create_request Users.baseUrl a) a /\
  replies_with (Scenario.echo Users.emptyUser) (create_request Users.baseUrl b) b /\
  is_safe_integer (maxId (items s)) = true /\
  is_safe_integer (maxId (items s) + 1) = true /\
  items s2 =
    Scenario.listAB ++ [Scenario.user 4 "C" "c@example.com";
                        Scenario.user 5 "D" "d@example.com"].
Proof.
  cbv zeta.
  assert (Ha : replies_with (Scenario.echo Users.emptyUser)
                 (create_request Users.baseUrl (Scenario.draft "C" "c@example.com"))
                 (Scenario.draft "C" "c@example.com")).
  { eexists. split; [reflexivity|]. split; reflexivity. }
  assert (Hb : replies_with (Scenario.echo Users.emptyUser)
                 (create_request Users.baseUrl (Scenario.draft "D" "d@example.com"))
                 (Scenario.draft "D" "d@example.com")).
  { eexists. split; [reflexivity|]. split; reflexivity. }
  split; [exact Ha|]. split; [exact Hb|].
  split; [reflexivity|]. split; [reflexivity|].
  exact (creates_number_consecutively Users.BaseUser
           (Scenario.echo Users.emptyUser) Users.baseUrl "user"
           (Scenario.showing Scenario.listAB (Scenario.draft "C" "c@example.com"))
           Users.emptyUser _ _ _ _ Ha Hb eq_refl eq_refl).
Defined.

(** X10.  Deleting the element that a create has just appended, by the
    identifier the create synthesized, restores the list as it was before the
    create, whatever identifiers the list carries, as long as the maximum
    the create computed is a safe integer. *)
Theorem create_then_delete_restores
    (F B : Type) (server : request (Entity F) -> fetch_result (Entity F))
    (deleteServer : request (Entity F) -> fetch_result B)
    (baseUrl entityName : string) (s : PageState F)
    (clearFormData itemData newItem : Entity F) :
  replies_with server (create_request baseUrl itemData) newItem ->
  accepts deleteServer
    (delete_request baseUrl (number_add (maxId (items s)) 1)) ->
  is_safe_integer (maxId (items s)) = true ->
  let s1 :=
    settle s (createCreateHandler server baseUrl (items s) clearFormData
                entityName itemData) in
  let s2 :=
    settle s1 (createDeleteHandler deleteServer baseUrl (items s1) entityName
                 (number_add (maxId (items s)) 1)) in
  items s2 = items s.
Proof.
  intros Hc Hd Hsafe s1 s2. subst s2 s1.
  rewrite (create_handler_success _ _ _ _ _ _ _ Hc). cbn.
  rewrite (delete_handler_success _ _ _ _ _ Hd). cbn.
  apply remove_appended, Hsafe.
Qed.

Lemma create_then_delete_restores_witness :
  let a := Scenario.draft "C" "c@example.com" in
  let s := Scenario.showing Scenario.listDup a in
  let s1 :=
    settle s (createCreateHandler (Scenario.echo Users.emptyUser) Users.baseUrl
                (items s) Users.emptyUser "user" a) in
  let s2 :=
    settle s1 (createDeleteHandler (Scenario.always 200 tt) Users.baseUrl
                 (items s1) "user" 4) in
  replies_with (Scenario.echo Users.emptyUser) (create_request Users.baseUrl a) a /\
  accepts (Scenario.always 200 tt)
    (delete_request (F:=Users.BaseUser) Users.baseUrl
       (number_add (maxId (items s)) 1)) /\
  is_safe_integer (maxId (items s)) = true /\
  items s2 = Scenario.listDup.
Proof.
  cbv zeta.
  assert (Hc : replies_with (Scenario.echo Users.emptyUser)
                 (create_request Users.baseUrl (Scenario.draft "C" "c@example.com"))
                 (Scenario.draft "C" "c@example.com")).
  { eexists. split; [reflexivity|]. split; reflexivity. }
  assert (Hd : accepts (Scenario.always 200 tt)
                 (delete_request (F:=Users.BaseUser) Users.baseUrl
                    (number_add
                       (maxId (items (Scenario.showing Scenario.listDup
                                        (Scenario.draft "C" "c@example.com"))))
                       1))).
  { eexists. split; reflexivity. }
  split; [exact Hc|]. split; [exact Hd|]. split; [reflexivity|].
  exact (create_then_delete_restores Users.BaseUser unit
           (Scenario.echo Users.emptyUser) (Scenario.always 200 tt)
           Users.baseUrl "user"
           (Scenario.showing Scenario.listDup (Scenario.draft "C" "c@example.com"))
           Users.emptyUser _ _ Hc Hd eq_refl).
Defined.

(** X11.  Two successful deletes, each by the handler of the render it runs
    in, leave the same list in either order, and deleting the same identifier
    a second time changes nothing. *)
Theorem deletes_commute
    (F B : Type) (server : request (Entity F) -> fetch_result B)
    (baseUrl entityName : string) (s : PageState F) (n m : Z) :
  accepts server (delete_request baseUrl n) ->
  accepts server (delete_request baseUrl m) ->
  let del (st : PageState F) (k : Z) :=
    settle st (createDeleteHandler server baseUrl (items st) entityName k) in
  items (del (del s n) m) = items (del (del s m) n) /\
  items (del (del s n) n) = items (del s n).
Proof.
  intros Hn Hm del. subst del. cbv beta.
  rewrite !(delete_handler_success _ _ _ _ _ Hn).
  rewrite !(delete_handler_success _ _ _ _ _ Hm). cbn.
  split; [apply remove_comm|apply remove_twice].
Qed.

Lemma deletes_commute_witness :
  let s := Scenario.showing Scenario.listAB Users.emptyUser in
  let del (st : PageState Users.BaseUser) (k : Z) :=
    settle st (createDeleteHandler (Scenario.always 200 tt) Users.baseUrl
                 (items st) "user" k) in
  accepts (Scenario.always 200 tt)
    (delete_request (F:=Users.BaseUser) Users.baseUrl 1) /\
  accepts (Scenario.always 200 tt)
    (delete_request (F:=Users.BaseUser) Users.baseUrl 3) /\
  items (del (del s 1) 3) = items (del (del s 3) 1) /\
  items (del (del s 1) 1) = items (del s 1).
Proof.
  cbv zeta.
  assert (H1 : accepts (Scenario.always 200 tt)
                 (delete_request (F:=Users.BaseUser) Users.baseUrl 1))
    by (eexists; split; reflexivity).
  assert (H3 : accepts (Scenario.always 200 tt)
                 (delete_request (F:=Users.BaseUser) Users.baseUrl 3))
    by (eexists; split; reflexivity).
  split; [exact H1|]. split; [exact H3|].
  exact (deletes_commute Users.BaseUser unit (Scenario.always 200 tt)
           Users.baseUrl "user"
           (Scenario.showing Scenario.listAB Users.emptyUser) 1 3 H1 H3).
Defined.

(** X12.  Repeating a successful update, when the server's representation
    carries the submitted identifier, leaves the list as the first update made
    it. *)
Theorem update_twice_is_once
    (F : Type) (server : request (Entity F) -> fetch_result (Entity F))
    (baseUrl entityName : string) (s : PageState F)
    (clearFormData itemData savedItem : Entity F) :
  truthy_number (id itemData) = true ->
  replies_with server (update_request baseUrl itemData) savedItem ->
  id savedItem = id itemData ->
  let upd (st : PageState F) :=
    settle st (createUpdateHandler server baseUrl (items st) clearFormData
                 entityName itemData) in
  items (upd (upd s)) = items (upd s).
Proof.
  intros Hid Hok Hsame upd. subst upd. cbv beta.
  rewrite !(update_handler_success _ _ _ _ _ _ _ Hid Hok). cbn.
  apply replace_twice, Hsame.
Qed.

Lemma update_twice_is_once_witness :
  let itemData := Scenario.user 3 "B2" "b@example.com" in
  let upd (st : PageState Users.BaseUser) :=
    settle st (createUpdateHandler (Scenario.echo Users.emptyUser) Users.baseUrl
                 (items st) Users.emptyUser "user" itemData) in
  let s := Scenario.showing Scenario.listDup itemData in
  truthy_number (id itemData) = true /\
  replies_with (Scenario.echo Users.emptyUser)
    (update_request Users.baseUrl itemData) itemData /\
  items (upd (upd s)) = items (upd s).
Proof.
  cbv zeta.
  assert (Hok : replies_with (Scenario.echo Users.emptyUser)
                  (update_request Users.baseUrl (Scenario.user 3 "B2" "b@example.com"))
                  (Scenario.user 3 "B2" "b@example.com")).
  { eexists. split; [reflexivity|]. split; reflexivity. }
  split; [reflexivity|]. split; [exact Hok|].
  exact (update_twice_is_once Users.BaseUser (Scenario.echo Users.emptyUser)
           Users.baseUrl "user"
           (Scenario.showing Scenario.listDup (Scenario.user 3 "B2" "b@example.com"))
           Users.emptyUser (Scenario.user 3 "B2" "b@example.com")
           (Scenario.user 3 "B2" "b@example.com") eq_refl Hok eq_refl).
Defined.

(** X13.  A handler works on the list of the render it was created in, not on
    the list the page holds when it settles. When two create handlers of the
    same render both succeed, the one that settles last overwrites the list:
    only its element is appended, the other creation is lost, and both were
    given the same identifier. *)
Theorem creates_of_one_render_collide
    (F : Type) (server : request (Entity F) -> fetch_result (Entity F))
    (baseUrl entityName : string) (s : PageState F)
    (clearFormData a b newA newB : Entity F) :
  replies_with server (create_request baseUrl a) newA ->
  replies_with server (create_request baseUrl b) newB ->
  let first :=
    createCreateHandler server baseUrl (items s) clearFormData entityName a in
  let second :=
    createCreateHandler server baseUrl (items s) clearFormData entityName b in
  items (settle s first)
  = items s ++ [with_id newA (number_add (maxId (items s)) 1)] /\
  items (settle (settle s first) second)
  = items s ++ [with_id newB (number_add (maxId (items s)) 1)] /\
  length (items (settle (settle s first) second)) = S (length (items s)).
Proof.
  intros Ha Hb first second. subst first second.
  rewrite (create_handler_success _ _ _ _ _ _ _ Ha).
  rewrite (create_handler_success _ _ _ _ _ _ _ Hb). cbn.
  repeat split. rewrite length_app. cbn. lia.
Qed.

Lemma creates_of_one_render_collide_witness :
  let a := Scenario.draft "C" "c@example.com" in
  let b := Scenario.draft "D" "d@example.com" in
  let s := Scenario.showing Scenario.listAB a in
  let first :=
    createCreateHandler (Scenario.echo Users.emptyUser) Users.baseUrl (items s)
      Users.emptyUser "user" a in
  let second :=
    createCreateHandler (Scenario.echo Users.emptyUser) Users.baseUrl (items s)
      Users.emptyUser "user" b in
  replies_with (Scenario.echo Users.emptyUser) (create_request Users.baseUrl a) a /\
  replies_with (Scenario.echo Users.emptyUser) (create_request Users.baseUrl b) b /\
  items (settle (settle s first) second)
  = Scenario.listAB ++ [Scenario.user 4 "D" "d@example.com"].
Proof.
  cbv zeta.
  assert (Ha : replies_with (Scenario.echo Users.emptyUser)
                 (create_request Users.baseUrl (Scenario.draft "C" "c@example.com"))
                 (Scenario.draft "C" "c@example.com")).
  { eexists. split; [reflexivity|]. split; reflexivity. }
  assert (Hb : replies_with (Scenario.echo Users.emptyUser)
                 (create_request Users.baseUrl (Scenario.draft "D" "d@example.com"))
                 (Scenario.draft "D" "d@example.com")).
  { eexists. split; [reflexivity|]. split; reflexivity. }
  split; [exact Ha|]. split; [exact Hb|].
  exact (proj1 (proj2 (creates_of_one_render_collide Users.BaseUser
                         (Scenario.echo Users.emptyUser) Users.baseUrl "user"
                         (Scenario.showing Scenario.listAB
                            (Scenario.draft "C" "c@example.com"))
                         Users.emptyUser _ _ _ _ Ha Hb))).
Defined.

(** * Further properties of the pages *)

(** ** Editing a row *)

(** X14.  posts.tsx: "Edit" on a row copies its id, postId, title and body
    into the form draft, and nothing else of the row; the list is untouched.
    The page is then in edit mode exactly when the row's identifier is truthy,
    and a submit with non-blank title and body runs the update with that draft
    in this case and the create otherwise. When the identifiers of the list
    are pairwise distinct and the server echoes what it was sent, the row is
    replaced by the draft, so its further properties are lost. *)
Theorem posts_edit_then_submit
    (itemServer : request Posts.Post -> fetch_result Posts.Post)
    (s : PageState Posts.BasePost) (post : Posts.Post) :
  let s1 := settle s (Posts.startEdit post) in
  let draft :=
    mkEntity (id post)
      (Posts.mkPost (Posts.postId (fields post)) (Posts.title (fields post))
         (Posts.body (fields post)) ∅) in
  formData s1 = draft /\
  items s1 = items s /\
  Posts.isEditing s1 = truthy_number (id post) /\
  (blank (Posts.title (fields post)) = false ->
   blank (Posts.body (fields post)) = false ->
   Posts.handleSubmit itemServer s1
   = (if truthy_number (id post)
      then Posts.handleUpdatePost itemServer s1 draft
      else Posts.handleCreatePost itemServer s1 draft) /\
   (truthy_number (id post) = true ->
    NoDup (id <$> items s) ->
    forall i : nat, items s !! i = Some post ->
    replies_with itemServer (update_request Posts.baseUrl draft) draft ->
    items (settle s1 (Posts.handleSubmit itemServer s1))
    = <[i := draft]> (items s))).
Proof.
  cbv zeta. split; [reflexivity|]. split; [reflexivity|].
  split; [reflexivity|].
  intros Htitle Hbody.
  assert (Hsubmit :
            Posts.handleSubmit itemServer (settle s (Posts.startEdit post))
            = (if truthy_number (id post)
               then Posts.handleUpdatePost itemServer
                      (settle s (Posts.startEdit post))
                      (formData (settle s (Posts.startEdit post)))
               else Posts.handleCreatePost itemServer
                      (settle s (Posts.startEdit post))
                      (formData (settle s (Posts.startEdit post))))).
  { unfold Posts.handleSubmit. cbn [settle Posts.startEdit].
    change (Posts.title (fields (formData (settle s (Posts.startEdit post)))))
      with (Posts.title (fields post)).
    change (Posts.body (fields (formData (settle s (Posts.startEdit post)))))
      with (Posts.body (fields post)).
    rewrite (trim_not_blank _ Htitle), (trim_not_blank _ Hbody).
    reflexivity. }
  split; [exact Hsubmit|].
  intros Hid Hnd i Hi Hok.
  rewrite Hsubmit, Hid. unfold Posts.handleUpdatePost.
  change (formData (settle s (Posts.startEdit post)))
    with (mkEntity (id post)
            (Posts.mkPost (Posts.postId (fields post))
               (Posts.title (fields post)) (Posts.body (fields post)) ∅)).
  change (items (settle s (Posts.startEdit post))) with (items s).
  rewrite (update_handler_success itemServer Posts.baseUrl (items s)
             Posts.emptyPost "post"
             (mkEntity (id post)
                (Posts.mkPost (Posts.postId (fields post))
                   (Posts.title (fields post)) (Posts.body (fields post)) ∅))
             _ Hid Hok).
  cbn. apply (replace_one _ _ _ post i Hnd Hi). reflexivity.
Qed.

Lemma posts_edit_then_submit_witness :
  let row := Scenario.postWithExtra 3 "T" "B" in
  let s :=
    mkPageState [Scenario.post 1 "S" "A"; row] false None Posts.emptyPost in
  let s1 := settle s (Posts.startEdit row) in
  blank (Posts.title (fields row)) = false /\
  blank (Posts.body (fields row)) = false /\
  truthy_number (id row) = true /\
  NoDup (id <$> items s) /\
  items s !! 1%nat = Some row /\
  replies_with Scenario.echoPost
    (update_request Posts.baseUrl (Scenario.post 3 "T" "B"))
    (Scenario.post 3 "T" "B") /\
  items (settle s1 (Posts.handleSubmit Scenario.echoPost s1))
  = [Scenario.post 1 "S" "A"; Scenario.post 3 "T" "B"].
Proof.
  cbv zeta.
  assert (Hnd : NoDup (id <$> items
                         (mkPageState
                            [Scenario.post 1 "S" "A";
                             Scenario.postWithExtra 3 "T" "B"]
                            false None Posts.emptyPost))).
  { apply NoDup_cons. split; [|apply NoDup_singleton].
    intros Hin. apply list_elem_of_singleton in Hin. discriminate Hin. }
  assert (Hok : replies_with Scenario.echoPost
                  (update_request Posts.baseUrl (Scenario.post 3 "T" "B"))
                  (Scenario.post 3 "T" "B")).
  { eexists. split; [reflexivity|]. split; reflexivity. }
  split; [reflexivity|]. split; [reflexivity|]. split; [reflexivity|].
  split; [exact Hnd|]. split; [reflexivity|]. split; [exact Hok|].
  exact (proj2 (proj2 (proj2 (proj2
           (posts_edit_then_submit Scenario.echoPost
              (mkPageState
                 [Scenario.post 1 "S" "A"; Scenario.postWithExtra 3 "T" "B"]
                 false None Posts.emptyPost)
              (Scenario.postWithExtra 3 "T" "B"))))
           eq_refl eq_refl) eq_refl Hnd 1%nat eq_refl Hok).
Defined.

(** X15.  users.tsx: "Edit" on a row copies its id, name and email into the
    form draft, and nothing else of the row. The page is then in edit mode
    exactly when the row's identifier is truthy, and a submit with non-blank
    name and email runs the update operation with that draft in this case; for
    a row whose identifier is missing or 0 it runs the create operation
    instead. *)
Theorem users_edit_then_submit
    (handleCreate handleUpdate : Users.User -> Eff Users.BaseUser unit)
    (s : PageState Users.BaseUser) (user : Users.User) :
  let s1 := settle s (Users.startEdit user) in
  let draft :=
    mkEntity (id user)
      (Users.mkUser (Users.name (fields user)) (Users.email (fields user)) ∅) in
  formData s1 = draft /\
  items s1 = items s /\
  Users.isEditing s1 = truthy_number (id user) /\
  (blank (Users.name (fields user)) = false ->
   blank (Users.email (fields user)) = false ->
   Users.handleSubmit handleCreate handleUpdate s1
   = if truthy_number (id user) then handleUpdate draft else handleCreate draft).
Proof.
  cbv zeta. split; [reflexivity|]. split; [reflexivity|].
  split; [reflexivity|].
  intros Hname Hemail. unfold Users.handleSubmit.
  change (Users.name (fields (formData (settle s (Users.startEdit user)))))
    with (Users.name (fields user)).
  change (Users.email (fields (formData (settle s (Users.startEdit user)))))
    with (Users.email (fields user)).
  rewrite (trim_not_blank _ Hname), (trim_not_blank _ Hemail).
  reflexivity.
Qed.

Lemma users_edit_then_submit_witness :
  let row := Scenario.user 0 "Z" "z@example.com" in
  let s := Scenario.showing [row] Users.emptyUser in
  let s1 := settle s (Users.startEdit row) in
  let handleCreate :=
    createCreateHandler (Scenario.echo Users.emptyUser) Users.baseUrl (items s1)
      Users.emptyUser "user" in
  let handleUpdate :=
    createUpdateHandler (Scenario.echo Users.emptyUser) Users.baseUrl (items s1)
      Users.emptyUser "user" in
  blank (Users.name (fields row)) = false /\
  blank (Users.email (fields row)) = false /\
  Users.isEditing s1 = false /\
  items (settle s1 (Users.handleSubmit handleCreate handleUpdate s1))
  = [row; Scenario.user 1 "Z" "z@example.com"].
Proof.
  cbv zeta.
  split; [reflexivity|]. split; [reflexivity|]. split; [reflexivity|].
  rewrite (proj2 (proj2 (proj2
             (users_edit_then_submit
                (createCreateHandler (Scenario.echo Users.emptyUser)
                   Users.baseUrl
                   (items (settle
                             (Scenario.showing
                                [Scenario.user 0 "Z" "z@example.com"]
                                Users.emptyUser)
                             (Users.startEdit
                                (Scenario.user 0 "Z" "z@example.com"))))
                   Users.emptyUser "user")
                (createUpdateHandler (Scenario.echo Users.emptyUser)
                   Users.baseUrl
                   (items (settle
                             (Scenario.showing
                                [Scenario.user 0 "Z" "z@example.com"]
                                Users.emptyUser)
                             (Users.startEdit
                                (Scenario.user 0 "Z" "z@example.com"))))
                   Users.emptyUser "user")
                (Scenario.showing [Scenario.user 0 "Z" "z@example.com"]
                   Users.emptyUser)
                (Scenario.user 0 "Z" "z@example.com"))))
             eq_refl eq_refl).
  reflexivity.
Defined.

(** ** The form after a submit or a cancel *)

Section Settled.

Context {F : Type}.
Implicit Types (s : PageState F) (l : list (Entity F)).

(** A create or an update that leaves no error has cleared the form. *)
Lemma create_no_error_clears_form
    (server : request (Entity F) -> fetch_result (Entity F))
    (baseUrl entityName : string) s l (clearFormData itemData : Entity F) :
  error (settle s (createCreateHandler server baseUrl l clearFormData
                     entityName itemData)) = None ->
  formData (settle s (createCreateHandler server baseUrl l clearFormData
                        entityName itemData)) = clearFormData.
Proof.
  unfold createCreateHandler.
  all_paths server; intros H; first [discriminate H|reflexivity].
Qed.

Lemma update_no_error_clears_form
    (server : request (Entity F) -> fetch_result (Entity F))
    (baseUrl entityName : string) s l (clearFormData itemData : Entity F) :
  error (settle s (createUpdateHandler server baseUrl l clearFormData
                     entityName itemData)) = None ->
  formData (settle s (createUpdateHandler server baseUrl l clearFormData
                        entityName itemData)) = clearFormData.
Proof.
  unfold createUpdateHandler. run_handler.
  destruct (truthy_number (id itemData)); cbn; [|intros H; discriminate H].
  all_paths server; intros H; first [discriminate H|reflexivity].
Qed.

(** Neither touches the loading flag; a fetch always lowers it. *)
Lemma create_keeps_loading
    (server : request (Entity F) -> fetch_result (Entity F))
    (baseUrl entityName : string) s l (clearFormData itemData : Entity F) :
  loading (settle s (createCreateHandler server baseUrl l clearFormData
                       entityName itemData)) = loading s.
Proof. unfold createCreateHandler. all_paths server; reflexivity. Qed.

Lemma update_keeps_loading
    (server : request (Entity F) -> fetch_result (Entity F))
    (baseUrl entityName : string) s l (clearFormData itemData : Entity F) :
  loading (settle s (createUpdateHandler server baseUrl l clearFormData
                       entityName itemData)) = loading s.
Proof.
  unfold createUpdateHandler. run_handler.
  destruct (truthy_number (id itemData)); cbn; [|reflexivity].
  all_paths server; reflexivity.
Qed.

Lemma fetch_lowers_loading
    (server : request (Entity F) -> fetch_result (list (Entity F)))
    (baseUrl entityName : string) s :
  loading (settle s (createFetchHandler server baseUrl entityName)) = false.
Proof. unfold createFetchHandler. all_paths server; reflexivity. Qed.

(** A fetch that does not succeed leaves the list as it was. *)
Lemma fetch_failure_keeps_items
    (server : request (Entity F) -> fetch_result (list (Entity F)))
    (baseUrl entityName : string) s :
  (forall data, ~ replies_with server (list_request baseUrl) data) ->
  items (settle s (createFetchHandler server baseUrl entityName)) = items s.
Proof.
  intros Hfail. unfold createFetchHandler.
  all_paths server; try reflexivity.
  exfalso. eapply Hfail. exists r. repeat split; eassumption.
Qed.

End Settled.

(** X16.  posts.tsx: whenever a submit leaves no error on the page, it has
    succeeded and the form draft is the empty template, so the page is out of
    edit mode; and the empty template cannot be submitted: submitting it again
    only sets the validation error and issues no request. "Cancel"
    ([resetForm]) also leads to the empty template, clears the error and
    leaves the list alone. *)
Theorem posts_form_after_submit :
  (forall (itemServer : request Posts.Post -> fetch_result Posts.Post)
      (s : PageState Posts.BasePost),
      let s1 := settle s (Posts.handleSubmit itemServer s) in
      error s1 = None ->
      formData s1 = Posts.emptyPost /\
      Posts.isEditing s1 = false /\
      Posts.handleSubmit itemServer s1
      = ([SetError (Some "Please fill in all fields")], Normal tt)) /\
  (forall (itemServer : request Posts.Post -> fetch_result Posts.Post)
      (s : PageState Posts.BasePost),
      formData s = Posts.emptyPost ->
      Posts.handleSubmit itemServer s
      = ([SetError (Some "Please fill in all fields")], Normal tt)) /\
  (forall s : PageState Posts.BasePost,
      settle s Posts.resetForm
      = mkPageState (items s) (loading s) None Posts.emptyPost).
Proof.
  assert (Hempty : forall (itemServer : request Posts.Post -> fetch_result Posts.Post)
                     (s : PageState Posts.BasePost),
             formData s = Posts.emptyPost ->
             Posts.handleSubmit itemServer s
             = ([SetError (Some "Please fill in all fields")], Normal tt)).
  { intros itemServer s Hform. unfold Posts.handleSubmit.
    rewrite Hform. reflexivity. }
  split; [|split; [exact Hempty|reflexivity]].
  intros itemServer s s1 Herr.
  assert (Hform : formData s1 = Posts.emptyPost).
  { subst s1. revert Herr.
    unfold Posts.handleSubmit, Posts.handleCreatePost, Posts.handleUpdatePost.
    destruct (_ || _); [intros H; discriminate H|].
    destruct (truthy_number (id (formData s))).
    - apply update_no_error_clears_form.
    - apply create_no_error_clears_form. }
  split; [exact Hform|]. split.
  - unfold Posts.isEditing. rewrite Hform. reflexivity.
  - apply Hempty, Hform.
Qed.

Lemma posts_form_after_submit_witness :
  let s :=
    mkPageState [Scenario.post 1 "S" "A"] false (Some "old")
      (mkEntity None (Posts.mkPost 0 (lit "T") (lit "B") ∅)) in
  let s1 := settle s (Posts.handleSubmit Scenario.echoPost s) in
  error s1 = None /\
  items s1 = [Scenario.post 1 "S" "A"; mkEntity (Some 2) (Posts.mkPost 0 (lit "T") (lit "B") ∅)] /\
  formData s1 = Posts.emptyPost /\
  requests (Posts.handleSubmit Scenario.echoPost s1) = [].
Proof.
  cbv zeta.
  pose proof (proj1 posts_form_after_submit Scenario.echoPost
                (mkPageState [Scenario.post 1 "S" "A"] false (Some "old")
                   (mkEntity None (Posts.mkPost 0 (lit "T") (lit "B") ∅)))
                eq_refl) as (Hform & _ & Hagain).
  split; [reflexivity|]. split; [reflexivity|]. split; [exact Hform|].
  rewrite Hagain. reflexivity.
Defined.

(** ** What the posts page shows *)

(** X17.  posts.tsx: the page starts with the loading text. Once a fetch has
    settled, with whatever outcome, the loading text is gone: the page shows
    the empty-state text when the list is empty and the table, one row per
    post in list order, otherwise. A submit never lowers the loading flag:
    while it is up, the loading text stays. *)
Theorem posts_list_area :
  Posts.listArea Posts.initial = Posts.LoadingText /\
  (forall (listServer : request Posts.Post -> fetch_result (list Posts.Post))
      (s : PageState Posts.BasePost),
      let s' := settle s (Posts.handleFetchPosts listServer) in
      Posts.listArea s' <> Posts.LoadingText /\
      (Posts.listArea s' = Posts.EmptyState <-> items s' = []) /\
      (forall rows, Posts.listArea s' = Posts.Table rows ->
         rows = (fun post : Posts.Post =>
                   (id post, Posts.title (fields post), Posts.body (fields post)))
                <$> items s' /\
         length rows = length (items s'))) /\
  (forall (listServer : request Posts.Post -> fetch_result (list Posts.Post)),
      (forall data, ~ replies_with listServer (list_request Posts.baseUrl) data) ->
      Posts.listArea (settle Posts.initial (Posts.handleFetchPosts listServer))
      = Posts.EmptyState) /\
  (forall (itemServer : request Posts.Post -> fetch_result Posts.Post)
      (s : PageState Posts.BasePost),
      loading s = true ->
      Posts.listArea (settle s (Posts.handleSubmit itemServer s))
      = Posts.LoadingText).
Proof.
  split; [reflexivity|]. split; [|split].
  - intros listServer s s'.
    assert (Hload : loading s' = false)
      by (subst s'; apply fetch_lowers_loading).
    unfold Posts.listArea. rewrite Hload.
    destruct (items s') as [|p l] eqn:Hitems; cbn.
    + split; [discriminate|]. split; [tauto|]. intros rows H. discriminate H.
    + split; [discriminate|]. split.
      * split; intros H; discriminate H.
      * intros rows H. injection H as <-. split; [reflexivity|].
        cbn. rewrite length_fmap. reflexivity.
  - intros listServer Hfail.
    unfold Posts.listArea, Posts.handleFetchPosts.
    rewrite fetch_lowers_loading, (fetch_failure_keeps_items _ _ _ _ Hfail).
    reflexivity.
  - intros itemServer s Hload.
    unfold Posts.listArea.
    assert (Hkeep : loading (settle s (Posts.handleSubmit itemServer s)) = loading s).
    { unfold Posts.handleSubmit, Posts.handleCreatePost, Posts.handleUpdatePost.
      destruct (_ || _); [reflexivity|].
      destruct (truthy_number _);
        [apply update_keeps_loading|apply create_keeps_loading]. }
    rewrite Hkeep, Hload. reflexivity.
Qed.

Lemma posts_list_area_witness :
  let listServer : request Posts.Post -> fetch_result (list Posts.Post) :=
    Scenario.answer 500 [] in
  (forall data, ~ replies_with listServer (list_request Posts.baseUrl) data) /\
  Posts.listArea (settle Posts.initial (Posts.handleFetchPosts listServer))
  = Posts.EmptyState.
Proof.
  cbv zeta.
  assert (Hfail : forall data : list Posts.Post,
             ~ replies_with (Scenario.answer (T:=Posts.Post) 500 ([] : list Posts.Post))
                 (list_request Posts.baseUrl) data).
  { intros data (r & Hr & Hok & _). injection Hr as <-. discriminate Hok. }
  split; [exact Hfail|].
  exact (proj1 (proj2 (proj2 posts_list_area)) (Scenario.answer 500 []) Hfail).
Defined.

(** X18.  posts.tsx: the banner above the form shows the recorded error unless
    it is the empty string. After a fetch answered with a non-success status
    it reads "HTTP error! status: <code>"; after a rejection with something
    that is not an [Error] it reads "Failed to fetch posts"; after a rejection
    with an [Error] it reads the error's message, and is absent when that
    message is empty although an error is recorded; after a successful fetch
    it is absent; after a submit with a blank title or body it reads "Please
    fill in all fields". *)
Theorem posts_error_banner :
  (forall (listServer : request Posts.Post -> fetch_result (list Posts.Post))
      (s : PageState Posts.BasePost),
      let s' := settle s (Posts.handleFetchPosts listServer) in
      (forall code, answers_status listServer (list_request Posts.baseUrl) code ->
         Posts.errorBanner s' = Some ("HTTP error! status: " +:+ to_string code)) /\
      (rejects_with listServer (list_request Posts.baseUrl) NonError ->
         Posts.errorBanner s' = Some "Failed to fetch posts") /\
      (forall msg, rejects_with listServer (list_request Posts.baseUrl) (Error msg) ->
         error s' = Some msg /\
         Posts.errorBanner s' = if truthy_string msg then Some msg else None) /\
      (forall data, replies_with listServer (list_request Posts.baseUrl) data ->
         Posts.errorBanner s' = None)) /\
  (forall (itemServer : request Posts.Post -> fetch_result Posts.Post)
      (s : PageState Posts.BasePost),
      blank (Posts.title (fields (formData s))) = true \/
      blank (Posts.body (fields (formData s))) = true ->
      Posts.errorBanner (settle s (Posts.handleSubmit itemServer s))
      = Some "Please fill in all fields").
Proof.
  split.
  - intros listServer s s'. subst s'. unfold Posts.handleFetchPosts.
    split; [|split; [|split]].
    + intros code H. rewrite (fetch_handler_status _ _ _ _ H). reflexivity.
    + intros H. rewrite (fetch_handler_rejected _ _ _ _ H). reflexivity.
    + intros msg H. rewrite (fetch_handler_rejected _ _ _ _ H).
      split; reflexivity.
    + intros data H. rewrite (fetch_handler_success _ _ _ _ H). reflexivity.
  - intros itemServer s Hblank. unfold Posts.handleSubmit.
    destruct Hblank as [Hb|Hb]; rewrite (trim_blank _ Hb); cbn [negb orb].
    + reflexivity.
    + rewrite orb_true_r. reflexivity.
Qed.

Lemma posts_error_banner_witness :
  let listServer : request Posts.Post -> fetch_result (list Posts.Post) :=
    Scenario.unreachable EmptyString in
  let s' := settle Posts.initial (Posts.handleFetchPosts listServer) in
  rejects_with listServer (list_request Posts.baseUrl) (Error EmptyString) /\
  error s' = Some EmptyString /\
  Posts.errorBanner s' = None.
Proof.
  cbv zeta. split; [reflexivity|].
  exact (proj1 (proj2 (proj2 (proj1 posts_error_banner
                                (Scenario.unreachable EmptyString)
                                Posts.initial)))
           EmptyString eq_refl).
Defined.
